(** * Bivariate copulas: a shallow embedding of [copulas/bivariate/base.py]

    The development follows the Python module top-down: the numeric
    values the code computes with, exceptions, the list objects the code
    mutates (with their aliasing), the numpy helpers it calls, and then
    the [Bivariate] class itself.

    Numbers.  A Python [float] / numpy [float64] is modelled by [pyfloat]:
    an exact rational, or one of the three special values [+inf], [-inf],
    [nan].  Division by zero, comparisons with [nan] and arithmetic on
    infinities behave as in IEEE 754; rounding and the sign of zero are
    not modelled (every zero denominator in this module is a square, that
    is [+0.0]).

    Language.  Python 3: an ordering comparison between [None] and a
    number raises [TypeError]. *)

From Stdlib Require Import String Ascii Bool Arith ZArith QArith Qreduction Lia List.
Import ListNotations.

Open Scope string_scope.
Open Scope nat_scope.
Open Scope list_scope.

(* ================================================================== *)
(** ** Floating-point values *)

Module PyFloat.

Local Open Scope Q_scope.

Inductive pyfloat : Type :=
| Fin (q : Q)
| PInf
| NInf
| NaN.

Definition zero : pyfloat := Fin 0.
Definition one  : pyfloat := Fin 1.
Definition two  : pyfloat := Fin 2.

Definition of_nat (n : nat) : pyfloat := Fin (Z.of_nat n # 1).

(** Sign of a rational as a comparison with zero. *)
Definition Qsign (q : Q) : comparison := (0 ?= q).

Definition fneg (x : pyfloat) : pyfloat :=
  match x with
  | Fin q => Fin (Qred (- q))
  | PInf => NInf
  | NInf => PInf
  | NaN => NaN
  end.

Definition fadd (x y : pyfloat) : pyfloat :=
  match x, y with
  | NaN, _ | _, NaN => NaN
  | Fin a, Fin b => Fin (Qred (a + b))
  | PInf, NInf | NInf, PInf => NaN
  | PInf, _ | _, PInf => PInf
  | NInf, _ | _, NInf => NInf
  end.

Definition fsub (x y : pyfloat) : pyfloat := fadd x (fneg y).

Definition fmul (x y : pyfloat) : pyfloat :=
  match x, y with
  | NaN, _ | _, NaN => NaN
  | Fin a, Fin b => Fin (Qred (a * b))
  | Fin a, PInf | PInf, Fin a =>
      match Qsign a with Lt => PInf | Gt => NInf | Eq => NaN end
  | Fin a, NInf | NInf, Fin a =>
      match Qsign a with Lt => NInf | Gt => PInf | Eq => NaN end
  | PInf, PInf | NInf, NInf => PInf
  | PInf, NInf | NInf, PInf => NInf
  end.

(** numpy's [float64] division: a zero divisor yields an infinity (or
    [nan] for [0/0]) instead of raising. *)
Definition fdiv (x y : pyfloat) : pyfloat :=
  match x, y with
  | NaN, _ | _, NaN => NaN
  | Fin a, Fin b =>
      match Qsign b with
      | Eq => match Qsign a with Lt => PInf | Gt => NInf | Eq => NaN end
      | _ => Fin (Qred (a / b))
      end
  | Fin _, PInf | Fin _, NInf => Fin 0
  | PInf, Fin b => match Qsign b with Gt => NInf | _ => PInf end
  | NInf, Fin b => match Qsign b with Gt => PInf | _ => NInf end
  | _, _ => NaN
  end.

(** [x ** 2] and [np.power(x, 2)]. *)
Definition fsquare (x : pyfloat) : pyfloat := fmul x x.

(** [x <= y]; any comparison with [nan] is [False]. *)
Definition fleb (x y : pyfloat) : bool :=
  match x, y with
  | NaN, _ | _, NaN => false
  | NInf, _ => true
  | _, PInf => true
  | Fin a, Fin b => Qle_bool a b
  | _, _ => false
  end.

(** [x == y]. *)
Definition feqb (x y : pyfloat) : bool :=
  match x, y with
  | Fin a, Fin b => Qeq_bool a b
  | PInf, PInf | NInf, NInf => true
  | _, _ => false
  end.

(** [x < y]. *)
Definition fltb (x y : pyfloat) : bool := fleb x y && negb (feqb x y).

(** [x >= y] and [x > y]. *)
Definition fgeb (x y : pyfloat) : bool := fleb y x.
Definition fgtb (x y : pyfloat) : bool := fltb y x.

Definition is_finite (x : pyfloat) : bool :=
  match x with Fin _ => true | _ => false end.

(** [0 <= x], with [+inf] counted as non-negative. *)
Definition is_nonneg (x : pyfloat) : bool := fleb zero x.

End PyFloat.
Export PyFloat.

(* ================================================================== *)
(** ** Exceptions and results *)

(** The [ValueError]s of the module are told apart by their origin. *)
Inductive value_error : Type :=
| InvalidCopulaType         (* 'Invalid copula type {}' in [__new__] *)
| ThetaOutOfLimits          (* 'The computed theta value ...' in [check_theta] *)
| TauOutOfRange             (* 'The range for correlation measure is [-1,1].' *)
| NotAnEnumValue            (* [CopulaTypes(i)] for [i] outside 0..2 *)
| ShapeMismatch             (* numpy: operands could not be broadcast together *)
| EmptySequence             (* numpy: argmax of an empty sequence *)
| LibraryValueError.        (* a [ValueError] raised by scipy or by a subclass *)

Inductive exn : Type :=
| ValueError (why : value_error)
| NotFittedError
| TypeError
| IndexError
| AttributeError
| ZeroDivisionError
| NotImplementedError.

Inductive result (A : Type) : Type :=
| Ret (a : A)
| Raise (e : exn).

Arguments Ret {A} a.
Arguments Raise {A} e.

Definition rbind {A B} (m : result A) (k : A -> result B) : result B :=
  match m with
  | Ret a => k a
  | Raise e => Raise e
  end.

Declare Scope res_scope.
Delimit Scope res_scope with res.
Notation "x <- m ;; k" := (rbind m (fun x => k))
  (at level 61, m at next level, right associativity) : res_scope.

Definition is_value_error (e : exn) : bool :=
  match e with ValueError _ => true | _ => false end.

(** [[f(x) for x in xs]] where [f] may raise. *)
Fixpoint mapM {A B} (f : A -> result B) (xs : list A) : result (list B) :=
  match xs with
  | [] => Ret []
  | x :: xs' =>
      match f x with
      | Raise e => Raise e
      | Ret y =>
          match mapM f xs' with
          | Raise e => Raise e
          | Ret ys => Ret (y :: ys)
          end
      end
  end.

(* ================================================================== *)
(** ** Mutable list objects

    Python lists are objects: [a = b = []] binds two names to one list.
    The store keeps every list object created so far; a reference is the
    position of its object in the store. *)

Module Store.

Definition ref := nat.
Definition store (A : Type) := list (list A).

(** A computation over the store that may raise. *)
Definition St (A X : Type) := store A -> result (X * store A).

Definition ret {A X} (x : X) : St A X := fun h => Ret (x, h).

Definition bind {A X Y} (m : St A X) (k : X -> St A Y) : St A Y :=
  fun h => match m h with
           | Ret (x, h') => k x h'
           | Raise e => Raise e
           end.

Definition lift {A X} (r : result X) : St A X :=
  fun h => match r with
           | Ret x => Ret (x, h)
           | Raise e => Raise e
           end.

(** [[]]: a fresh, empty list object. *)
Definition new_list {A} : St A ref :=
  fun h => Ret (length h, h ++ [[]]).

(** The current contents of the object behind [r]. *)
Definition contents {A} (h : store A) (r : ref) : list A := nth r h [].

Fixpoint update {A} (h : store A) (r : ref) (l : list A) : store A :=
  match h, r with
  | [], _ => []
  | _ :: h', O => l :: h'
  | c :: h', S r' => c :: update h' r' l
  end.

(** [r.append(x)]. *)
Definition append {A} (r : ref) (x : A) : St A unit :=
  fun h => Ret (tt, update h r (contents h r ++ [x])).

(** [r[i]] for a non-negative index [i]. *)
Definition getitem {A} (r : ref) (i : nat) : St A A :=
  fun h => match nth_error (contents h r) i with
           | Some x => Ret (x, h)
           | None => Raise IndexError
           end.

(** [for k in ks: body(k)]. *)
Fixpoint for_each {A K} (ks : list K) (body : K -> St A unit) : St A unit :=
  match ks with
  | [] => ret tt
  | k :: ks' => bind (body k) (fun _ => for_each ks' body)
  end.

End Store.

Declare Scope st_scope.
Delimit Scope st_scope with st.
Notation "x <- m ;; k" := (Store.bind m (fun x => k))
  (at level 61, m at next level, right associativity) : st_scope.
Notation "m ;;; k" := (Store.bind m (fun _ => k))
  (at level 61, right associativity) : st_scope.

(* ================================================================== *)
(** ** The numpy operations used by the module *)

Module Numpy.

(** Element-wise binary operation on one-dimensional arrays, with numpy's
    broadcasting: equal lengths pair up, a length-one operand is
    stretched, anything else is a [ValueError]. *)
Definition broadcast2 {A B C} (f : A -> B -> C) (xs : list A) (ys : list B)
  : result (list C) :=
  if Nat.eqb (length xs) (length ys) then Ret (map (fun p => f (fst p) (snd p)) (combine xs ys))
  else match xs, ys with
       | [x], _ => Ret (map (f x) ys)
       | _, [y] => Ret (map (fun x => f x y) xs)
       | _, _ => Raise (ValueError ShapeMismatch)
       end.

(** [np.sum(a)]. *)
Definition sum (a : list pyfloat) : pyfloat := fold_left fadd a zero.

(** [np.power(a, 2)]. *)
Definition power2 (a : list pyfloat) : list pyfloat := map fsquare a.

(** [np.linspace(start, stop, num)]: [num] evenly spaced points, the last
    one exactly [stop].  The points computed here are the exact
    rationals; numpy's are their [float64] roundings, which for
    [linspace(0.0, 1.0, 50)] agree with them at both ends, [0.0] and
    [1.0], and may differ from [k/49] in the last place in between. *)
Definition linspace (start stop : pyfloat) (num : nat) : list pyfloat :=
  match num with
  | O => []
  | S O => [start]
  | S div =>
      let step := fdiv (fsub stop start) (of_nat div) in
      map (fun i => fadd (fmul (of_nat i) step) start) (seq 0 div) ++ [stop]
  end.

(** [np.argmax(a)]: the first [nan] if there is one, else the first
    position of the largest entry. *)
Fixpoint argmax_from (best : pyfloat) (besti i : nat) (a : list pyfloat) : nat :=
  match a with
  | [] => besti
  | x :: a' =>
      match best with
      | NaN => besti
      | _ =>
          match x with
          | NaN => i
          | _ => if fltb best x then argmax_from x i (S i) a'
                 else argmax_from best besti (S i) a'
          end
      end
  end.

Definition argmax (a : list pyfloat) : result nat :=
  match a with
  | [] => Raise (ValueError EmptySequence)
  | x :: a' => Ret (argmax_from x 0 1 a')
  end.

End Numpy.

(* ================================================================== *)
(** ** The enumeration of copula families *)

Inductive CopulaTypes : Type := CLAYTON | FRANK | GUMBEL.

Module CopulaType.

(** [member.value]. *)
Definition value (t : CopulaTypes) : nat :=
  match t with CLAYTON => 0 | FRANK => 1 | GUMBEL => 2 end.

(** [member.name]. *)
Definition name (t : CopulaTypes) : string :=
  match t with CLAYTON => "CLAYTON" | FRANK => "FRANK" | GUMBEL => "GUMBEL" end.

Definition eqb (a b : CopulaTypes) : bool :=
  match a, b with
  | CLAYTON, CLAYTON | FRANK, FRANK | GUMBEL, GUMBEL => true
  | _, _ => false
  end.

(** [CopulaTypes.__members__], as a lookup by name. *)
Definition members (s : string) : option CopulaTypes :=
  if String.eqb s "CLAYTON" then Some CLAYTON
  else if String.eqb s "FRANK" then Some FRANK
  else if String.eqb s "GUMBEL" then Some GUMBEL
  else None.

(** [CopulaTypes(i)]: lookup by value. *)
Definition of_value (i : nat) : result CopulaTypes :=
  match i with
  | 0 => Ret CLAYTON
  | 1 => Ret FRANK
  | 2 => Ret GUMBEL
  | _ => Raise (ValueError NotAnEnumValue)
  end.

End CopulaType.

(** The values a caller may hand to the constructor. *)
Inductive pyobj : Type :=
| PyNone
| PyStr (s : string)
| PyEnum (t : CopulaTypes)
| PyFloat (x : pyfloat)
| PyInt (z : Z).

(** [str.upper()] on the letters [a]..[z]; every other byte is kept. *)
Definition upper_ascii (c : ascii) : ascii :=
  let n := nat_of_ascii c in
  if (97 <=? n) && (n <=? 122) then ascii_of_nat (n - 32) else c.

Fixpoint upper (s : string) : string :=
  match s with
  | EmptyString => EmptyString
  | String c s' => String (upper_ascii c) (upper s')
  end.

(* ================================================================== *)
(** ** Subclasses and instances

    The concrete families ([Clayton], [Frank], [Gumbel]) live in other
    modules of the package; [base.py] only relies on the class attributes
    and methods collected here.  Each method receives the instance
    attribute it reads. *)

Record Subclass : Type := mkSubclass {
  copula_type : CopulaTypes;
  (** [lower, upper = self.theta_interval] *)
  theta_interval : pyfloat * pyfloat;
  invalid_thetas : list pyfloat;
  (** [self.get_theta()], computed from [self.tau] *)
  get_theta : option pyfloat -> result pyfloat;
  (** [self.cumulative_density(U, V)], with [self.theta] *)
  cumulative_density : option pyfloat -> list pyfloat -> list pyfloat -> result (list pyfloat);
  (** [self._sample(v, c)], with [self.theta] *)
  _sample : option pyfloat -> list pyfloat -> list pyfloat -> result (list pyfloat)
}.

(** An instance: its class and its attributes.  [U] and [V] do not exist
    before the first [fit]. *)
Record Bivariate : Type := mkBivariate {
  klass : Subclass;
  attr_U : option (list pyfloat);
  attr_V : option (list pyfloat);
  theta : option pyfloat;
  tau : option pyfloat
}.

Definition set_U (self : Bivariate) (x : list pyfloat) : Bivariate :=
  mkBivariate (klass self) (Some x) (attr_V self) (theta self) (tau self).
Definition set_V (self : Bivariate) (x : list pyfloat) : Bivariate :=
  mkBivariate (klass self) (attr_U self) (Some x) (theta self) (tau self).
Definition set_theta (self : Bivariate) (x : option pyfloat) : Bivariate :=
  mkBivariate (klass self) (attr_U self) (attr_V self) x (tau self).
Definition set_tau (self : Bivariate) (x : option pyfloat) : Bivariate :=
  mkBivariate (klass self) (attr_U self) (attr_V self) (theta self) x.

(** The record written by [to_dict] and read by [from_dict]. *)
Record copula_dict : Type := mkDict {
  dict_copula_type : pyobj;
  dict_theta : option pyfloat;
  dict_tau : option pyfloat
}.

Definition COMPUTE_EMPIRICAL_STEPS : nat := 50.

(** [Bivariate.__init__]. *)
Definition init (cls : Subclass) : Bivariate :=
  mkBivariate cls None None None None.

(** [Bivariate.check_fit]: [not self.theta] holds for [None] and for a
    float equal to zero. *)
Definition falsy (x : option pyfloat) : bool :=
  match x with
  | None => true
  | Some t => feqb t zero
  end.

Definition check_fit (self : Bivariate) : result unit :=
  if falsy (theta self) then Raise NotFittedError else Ret tt.

(** [x in xs] for floats. *)
Definition float_in (x : pyfloat) (xs : list pyfloat) : bool :=
  existsb (feqb x) xs.

(** [Bivariate.check_theta]. *)
Definition check_theta (self : Bivariate) : result unit :=
  let '(lower, upper) := theta_interval (klass self) in
  match theta self with
  | None => Raise TypeError
  | Some th =>
      if negb (fleb lower th && fleb th upper) || float_in th (invalid_thetas (klass self))
      then Raise (ValueError ThetaOutOfLimits)
      else Ret tt
  end.

(** [Bivariate.to_dict]. *)
Definition to_dict (self : Bivariate) : copula_dict :=
  mkDict (PyStr (CopulaType.name (copula_type (klass self)))) (theta self) (tau self).

(** [Bivariate.compute_tail]. *)
Definition compute_tail (c z : list pyfloat) : result (list pyfloat) :=
  (num <- Numpy.broadcast2 fadd (map (fun zi => fsub one (fmul two zi)) z) c ;;
   Numpy.broadcast2 fdiv num (Numpy.power2 (map (fsub one) z)))%res.

(** [sum(mask) / N]: the built-in [sum] of an empty array is the integer
    [0], and integer division by zero raises; otherwise the count is a
    numpy integer and the quotient a [float64]. *)
Definition count_true (mask : list bool) : nat :=
  List.length (filter (fun b => b) mask).

Definition fraction (mask : list bool) (N : nat) : result pyfloat :=
  match mask, N with
  | [], 0 => Raise ZeroDivisionError
  | _, _ => Ret (fdiv (of_nat (count_true mask)) (of_nat N))
  end.

Section CompEmpirical.

Import Store.

Variables u v : list pyfloat.

(** One iteration of the loop of [compute_empirical]. *)
Definition compute_empirical_step (base : list pyfloat) (N : nat)
    (z_left L z_right R : ref) (k : nat) : St pyfloat unit :=
  (bk <- lift (match nth_error base k with Some b => Ret b | None => Raise IndexError end) ;;
   left <- lift (mask <- Numpy.broadcast2 andb (map (fun x => fleb x bk) u)
                                              (map (fun x => fleb x bk) v) ;;
                 fraction mask N)%res ;;
   right <- lift (mask <- Numpy.broadcast2 andb (map (fun x => fgeb x bk) u)
                                               (map (fun x => fgeb x bk) v) ;;
                  fraction mask N)%res ;;
   (if fgtb left zero
    then append z_left bk ;;;
         append L (fdiv left (fsquare bk))
    else ret tt) ;;;
   (if fgtb right zero
    then append z_right bk ;;;
         zk <- getitem z_right k ;;
         append R (fdiv right (fsquare (fsub one zk)))
    else ret tt))%st.

(** [Bivariate.compute_empirical]: the four names it returns, as
    references into the store. *)
Definition compute_empirical_st : St pyfloat (ref * ref * ref * ref) :=
  (z <- new_list ;;
   let z_left := z in let z_right := z in
   l <- new_list ;;
   let L := l in let R := l in
   let N := List.length u in
   let base := Numpy.linspace zero one COMPUTE_EMPIRICAL_STEPS in
   for_each (seq 0 COMPUTE_EMPIRICAL_STEPS)
            (compute_empirical_step base N z_left L z_right R) ;;;
   ret (z_left, L, z_right, R))%st.

(** The call from outside: run on a store of its own and read the four
    returned lists. *)
Definition compute_empirical
  : result (list pyfloat * list pyfloat * list pyfloat * list pyfloat) :=
  match compute_empirical_st [] with
  | Raise e => Raise e
  | Ret ((z_left, L, z_right, R), h) =>
      Ret (contents h z_left, contents h L, contents h z_right, contents h R)
  end.

End CompEmpirical.

(** [Bivariate.get_dependences]: both results are references to lists of
    arrays. *)
Definition get_dependences_st (copulas : list Bivariate) (z_left z_right : list pyfloat)
  : Store.St (list pyfloat) (Store.ref * Store.ref) :=
  (l <- Store.new_list ;;
   let left' := l in let right' := l in
   Store.for_each copulas (fun copula =>
     x <- Store.lift (c <- cumulative_density (klass copula) (theta copula) z_left z_left ;;
                      Numpy.broadcast2 fdiv c (Numpy.power2 z_left))%res ;;
     Store.append left' x) ;;;
   Store.for_each copulas (fun copula =>
     x <- Store.lift (c <- cumulative_density (klass copula) (theta copula) z_right z_right ;;
                      compute_tail c z_right)%res ;;
     Store.append right' x) ;;;
   Store.ret (left', right'))%st.

Definition get_dependences (copulas : list Bivariate) (z_left z_right : list pyfloat)
  : result (list (list pyfloat) * list (list pyfloat)) :=
  match get_dependences_st copulas z_left z_right [] with
  | Raise e => Raise e
  | Ret ((left', right'), h) => Ret (Store.contents h left', Store.contents h right')
  end.

(** [[np.sum((E - d) ** 2) for d in dependence]]. *)
Definition costs (E : list pyfloat) (dependence : list (list pyfloat)) : result (list pyfloat) :=
  mapM (fun d => (diff <- Numpy.broadcast2 fsub E d ;;
                  Ret (Numpy.sum (Numpy.power2 diff)))%res) dependence.

Section Package.

(** [scipy.stats.kendalltau(U, V)[0]]. *)
Variable kendalltau : list pyfloat -> list pyfloat -> result pyfloat.

(** [Bivariate.subclasses()]: the classes found by the subclass scan. *)
Variable subclasses : list Subclass.

(** The state of numpy's random generator, and
    [np.random.uniform(0, 1, n)]. *)
Variable rng : Type.
Variable uniform : nat -> rng -> list pyfloat * rng.

(** [Bivariate.__new__]: [None] when no scanned subclass matches. *)
Definition new (copula_type_arg : pyobj) : result (option Subclass) :=
  (t <- match copula_type_arg with
        | PyEnum t => Ret t
        | PyStr s =>
            match CopulaType.members (upper s) with
            | Some t => Ret t
            | None => Raise (ValueError InvalidCopulaType)
            end
        | _ => Raise (ValueError InvalidCopulaType)
        end ;;
   Ret (find (fun subclass => CopulaType.eqb (copula_type subclass) t) subclasses))%res.

(** The call [Bivariate(copula_type)]: [__new__], then [__init__] on the
    new object. *)
Definition construct (copula_type_arg : pyobj) : result (option Bivariate) :=
  (c <- new copula_type_arg ;; Ret (option_map init c))%res.

(** [Bivariate.fit]: the outcome together with the instance as the call
    leaves it. *)
Definition fit (self : Bivariate) (U V : list pyfloat) : result unit * Bivariate :=
  let self := set_U self U in
  let self := set_V self V in
  match kendalltau U V with
  | Raise e => (Raise e, self)
  | Ret t =>
      let self := set_tau self (Some t) in
      match get_theta (klass self) (tau self) with
      | Raise e => (Raise e, self)
      | Ret th =>
          let self := set_theta self (Some th) in
          (check_theta self, self)
      end
  end.

(** [Bivariate.from_dict], called on the base class. *)
Definition from_dict (d : copula_dict) : result Bivariate :=
  (instance <- construct (dict_copula_type d) ;;
   match instance with
   | None => Raise AttributeError
   | Some instance =>
       let instance := set_theta instance (dict_theta d) in
       let instance := set_tau instance (dict_tau d) in
       Ret instance
   end)%res.

(** [Bivariate.sample]. *)
Definition sample (self : Bivariate) (n_samples : nat) (g : rng)
  : result (list (pyfloat * pyfloat)) * rng :=
  match tau self with
  | None => (Raise TypeError, g)
  | Some t =>
      if fgtb t one || fltb t (fneg one)
      then (Raise (ValueError TauOutOfRange), g)
      else
        let '(v, g) := uniform n_samples g in
        let '(c, g) := uniform n_samples g in
        match _sample (klass self) (theta self) v c with
        | Raise e => (Raise e, g)
        | Ret u =>
            if List.length u =? List.length v
            then (Ret (combine u v), g)
            else (Raise (ValueError ShapeMismatch), g)
        end
  end.

(** [x = Bivariate(t); x.fit(U, V)], returning the fitted object. *)
Definition fitted (t : CopulaTypes) (U V : list pyfloat) : result Bivariate :=
  (x <- construct (PyEnum t) ;;
   match x with
   | None => Raise AttributeError
   | Some x =>
       match fit x U V with
       | (Raise e, _) => Raise e
       | (Ret _, x') => Ret x'
       end
   end)%res.

(** A [try: ... except ValueError: pass] block around [fitted]: the
    fitted object to append to the candidates, or nothing. *)
Definition try_fitted (t : CopulaTypes) (U V : list pyfloat) : result (list Bivariate) :=
  match fitted t U V with
  | Ret x => Ret [x]
  | Raise e => if is_value_error e then Ret [] else Raise e
  end.

(** The general branch of [select_copula], from the two candidate lists
    on. *)
Definition select_among (copula_candidates : list Bivariate)
    (theta_candidates : list (option pyfloat)) (U V : list pyfloat)
  : result (CopulaTypes * option pyfloat) :=
  (e <- compute_empirical U V ;;
   let '(z_left, L, z_right, R) := e in
   d <- get_dependences copula_candidates z_left z_right ;;
   let '(left_dependence, right_dependence) := d in
   cost_L <- costs L left_dependence ;;
   cost_R <- costs R right_dependence ;;
   cost_LR <- Numpy.broadcast2 fadd cost_L cost_R ;;
   selected_copula <- Numpy.argmax cost_LR ;;
   selected_theta <- match nth_error theta_candidates selected_copula with
                     | Some th => Ret th
                     | None => Raise IndexError
                     end ;;
   family <- CopulaType.of_value selected_copula ;;
   Ret (family, selected_theta))%res.

(** [Bivariate.select_copula]. *)
Definition select_copula (U V : list pyfloat) : result (CopulaTypes * option pyfloat) :=
  (clayton <- fitted CLAYTON U V ;;
   match tau clayton with
   | None => Raise TypeError
   | Some t =>
       if fleb t zero
       then frank <- fitted FRANK U V ;;
            Ret (FRANK, theta frank)
       else
         let copula_candidates := [clayton] in
         let theta_candidates := [theta clayton] in
         frank <- try_fitted FRANK U V ;;
         let copula_candidates := copula_candidates ++ frank in
         let theta_candidates := theta_candidates ++ map theta frank in
         gumbel <- try_fitted GUMBEL U V ;;
         let copula_candidates := copula_candidates ++ gumbel in
         let theta_candidates := theta_candidates ++ map theta gumbel in
         select_among copula_candidates theta_candidates U V
   end)%res.

End Package.

Arguments sample {rng} uniform self n_samples g.

(* ================================================================== *)
(** ** Stand-ins for the code outside [base.py]

    Concrete values for what [base.py] imports or inherits, used to run
    the embedding on explicit inputs.  They are deliberately simple:
    nothing proved for all subclasses or for every [kendalltau] depends on
    them. *)

Module Sample.

Local Open Scope Q_scope.

(** [a / b] as a float. *)
Definition frac (a : Z) (b : positive) : pyfloat := Fin (Qred (a # b)).

(** Sign of [(a - b)]: [-1], [0] or [1]. *)
Definition sign_of (a b : pyfloat) : Z :=
  if fltb a b then (-1)%Z else if fltb b a then 1%Z else 0%Z.

(** Concordant minus discordant pairs. *)
Fixpoint pair_score (xy : list (pyfloat * pyfloat)) : Z :=
  match xy with
  | [] => 0%Z
  | (x, y) :: rest =>
      (fold_left (fun acc p => acc + sign_of x (fst p) * sign_of y (snd p)) rest 0
       + pair_score rest)%Z
  end.

(** The number of pairs of positions holding equal values. *)
Fixpoint tied_pairs (xs : list pyfloat) : nat :=
  match xs with
  | [] => 0%nat
  | x :: rest => (List.length (filter (feqb x) rest) + tied_pairs rest)%nat
  end.

(** A stand-in for [scipy.stats.kendalltau(U, V)[0]].  It is Kendall's
    tau-a, (concordant - discordant) / (n (n - 1) / 2), which is what
    scipy's tau-b comes to on sequences of one length without ties.  At
    the edges it does what scipy does: [nan] when a sequence is empty,
    a [ValueError] for two non-empty sequences of different sizes, [nan]
    for fewer than two observations and when all values of a sequence
    are equal.  On partly tied data it differs from tau-b; it is not run
    on such data. *)
Definition kendalltau (U V : list pyfloat) : result pyfloat :=
  let n := List.length U in
  match U, V with
  | [], _ | _, [] => Ret NaN
  | _, _ =>
      if negb (n =? List.length V)%nat then Raise (ValueError LibraryValueError)
      else if (n <? 2)%nat then Ret NaN
      else if ((tied_pairs U =? n * (n - 1) / 2) || (tied_pairs V =? n * (n - 1) / 2))%nat
      then Ret NaN
      else Ret (fdiv (Fin (pair_score (combine U V) # 1))
                     (Fin (Z.of_nat (n * (n - 1) / 2) # 1)))
  end.

(** A one-parameter family in the style of Clayton: theta in [[0, inf]],
    theta = 2 tau / (1 - tau); its distribution function is the Clayton
    one at theta = 1, [uv / (u + v - uv)], and [0] where [uv = 0]. *)
Definition clayton : Subclass :=
  mkSubclass CLAYTON (Fin 0, PInf) []
    (fun tau => match tau with
                | None => Raise TypeError
                | Some t => if feqb t one then Raise (ValueError LibraryValueError)
                            else Ret (fdiv (fmul two t) (fsub one t))
                end)
    (fun _ U V => Numpy.broadcast2
                    (fun a b => if feqb (fmul a b) zero then zero
                                else fdiv (fmul a b) (fsub (fadd a b) (fmul a b))) U V)
    (fun _ v c => Ret v).

(** In the style of Frank: any theta but zero; the independence copula
    [uv] as distribution function. *)
Definition frank : Subclass :=
  mkSubclass FRANK (NInf, PInf) [Fin 0]
    (fun tau => match tau with
                | None => Raise TypeError
                | Some t => Ret (fmul (Fin 9) t)
                end)
    (fun _ U V => Numpy.broadcast2 fmul U V)
    (fun _ v c => Ret c).

(** In the style of Gumbel: theta in [[1, inf]], theta = 1 / (1 - tau);
    the upper bound [min(u, v)] as distribution function. *)
Definition gumbel : Subclass :=
  mkSubclass GUMBEL (Fin 1, PInf) []
    (fun tau => match tau with
                | None => Raise TypeError
                | Some t => if feqb t one then Raise (ValueError LibraryValueError)
                            else Ret (fdiv one (fsub one t))
                end)
    (fun _ U V => Numpy.broadcast2 (fun a b => if fleb a b then a else b) U V)
    (fun _ v c => Ret v).

Definition subclasses : list Subclass := [clayton; frank; gumbel].

(** A random source that hands out a fixed value. *)
Definition uniform (n : nat) (g : unit) : list pyfloat * unit :=
  (repeat (frac 1 2) n, g).

End Sample.

(* ================================================================== *)
(** ** The selection as the documentation describes it

    A second reading of the tail estimator and of the scoring, written
    from the description rather than from the code: separate sequences
    for the two tails, [R] divided by [(1 - z)^2] at its own grid point,
    one score per candidate.  It is only used to compare with. *)

Module Described.

(** Left and right counts at grid point [z]. *)
Definition tail_counts (u v : list pyfloat) (z : pyfloat) : result (pyfloat * pyfloat) :=
  (ml <- Numpy.broadcast2 andb (map (fun x => fleb x z) u) (map (fun x => fleb x z) v) ;;
   l <- fraction ml (List.length u) ;;
   mr <- Numpy.broadcast2 andb (map (fun x => fgeb x z) u) (map (fun x => fgeb x z) v) ;;
   r <- fraction mr (List.length u) ;;
   Ret (l, r))%res.

Fixpoint empirical_over (u v : list pyfloat) (grid : list pyfloat)
  : result (list pyfloat * list pyfloat * list pyfloat * list pyfloat) :=
  match grid with
  | [] => Ret ([], [], [], [])
  | z :: grid' =>
      (c <- tail_counts u v z ;;
       rest <- empirical_over u v grid' ;;
       let '(z_left, L, z_right, R) := rest in
       let '(l, r) := c in
       Ret (if fgtb l zero then z :: z_left else z_left,
            if fgtb l zero then fdiv l (fsquare z) :: L else L,
            if fgtb r zero then z :: z_right else z_right,
            if fgtb r zero then fdiv r (fsquare (fsub one z)) :: R else R))%res
  end.

Definition compute_empirical (u v : list pyfloat) :=
  empirical_over u v (Numpy.linspace zero one COMPUTE_EMPIRICAL_STEPS).

(** The combined squared-deviation score of one candidate. *)
Definition score (z_left L z_right R : list pyfloat) (copula : Bivariate) : result pyfloat :=
  (cl <- cumulative_density (klass copula) (theta copula) z_left z_left ;;
   left_curve <- Numpy.broadcast2 fdiv cl (Numpy.power2 z_left) ;;
   cr <- cumulative_density (klass copula) (theta copula) z_right z_right ;;
   right_curve <- compute_tail cr z_right ;;
   dl <- Numpy.broadcast2 fsub L left_curve ;;
   dr <- Numpy.broadcast2 fsub R right_curve ;;
   Ret (fadd (Numpy.sum (Numpy.power2 dl)) (Numpy.sum (Numpy.power2 dr))))%res.

(** The candidate with the largest score: its family tag and its theta. *)
Definition select_among (copula_candidates : list Bivariate) (U V : list pyfloat)
  : result (CopulaTypes * option pyfloat) :=
  (e <- compute_empirical U V ;;
   let '(z_left, L, z_right, R) := e in
   scores <- mapM (score z_left L z_right R) copula_candidates ;;
   best <- Numpy.argmax scores ;;
   match nth_error copula_candidates best with
   | Some c => Ret (copula_type (klass c), theta c)
   | None => Raise IndexError
   end)%res.

End Described.

(* ================================================================== *)
(** ** Vocabulary for the proofs about [compute_empirical] *)

(** The number of observations with both coordinates [<= z], and with
    both coordinates [>= z]. *)
Definition left_count (u v : list pyfloat) (z : pyfloat) : nat :=
  count_true (map (fun p => fleb (fst p) z && fleb (snd p) z) (combine u v)).

Definition right_count (u v : list pyfloat) (z : pyfloat) : nat :=
  count_true (map (fun p => fgeb (fst p) z && fgeb (snd p) z) (combine u v)).

(** The grid of [compute_empirical]: [k / 49] for [k = 0 .. 49]. *)
Definition grid_point (k : nat) : pyfloat := Fin (Qred (Z.of_nat k # 49)).

Definition grid : list pyfloat := Numpy.linspace zero one COMPUTE_EMPIRICAL_STEPS.

(** What one iteration does to the two list objects [z] and [E] that the
    four names of [compute_empirical] refer to. *)
Definition step_effect (u v : list pyfloat) (k : nat) (bk : pyfloat) (z E : list pyfloat)
  : result (list pyfloat * list pyfloat) :=
  let N := List.length u in
  let l := fdiv (of_nat (left_count u v bk)) (of_nat N) in
  let r := fdiv (of_nat (right_count u v bk)) (of_nat N) in
  let z1 := if fgtb l zero then z ++ [bk] else z in
  let E1 := if fgtb l zero then E ++ [fdiv l (fsquare bk)] else E in
  if fgtb r zero then
    match nth_error (z1 ++ [bk]) k with
    | Some zk => Ret (z1 ++ [bk], E1 ++ [fdiv r (fsquare (fsub one zk))])
    | None => Raise IndexError
    end
  else Ret (z1, E1).

(** What holds of the two list objects [z] and [E] before iteration [a]
    of the loop: equal lengths, non-negative entries, only grid points
    seen so far in [z], at least [a] entries in [z] as long as every
    right count so far was positive, and finite entries when no
    observation has both coordinates [<= 0] or both [>= 1]. *)
Definition loop_invariant (u v : list pyfloat) (a : nat) (z E : list pyfloat) : Prop :=
  List.length z = List.length E
  /\ Forall (fun x => is_nonneg x = true) E
  /\ Forall (fun x => exists j, j < a /\ x = grid_point j) z
  /\ ((forall j, j < a -> 0 < right_count u v (grid_point j)) -> a <= List.length z)
  /\ (left_count u v zero = 0 -> right_count u v one = 0 ->
      Forall (fun x => is_finite x = true) E).

(* ================================================================== *)
(** ** The subclass scan

    [Bivariate._get_subclasses] walks the class tree below the class it
    is called on; [Bivariate.subclasses] caches the result in the class
    attribute [_subclasses].  A class is given by its body and the list
    [cls.__subclasses__()] of the classes that derive from it directly. *)

#[warnings="-register-all"]
Inductive pyclass : Type :=
| PyClass (body : Subclass) (direct : list pyclass).

Definition class_body (c : pyclass) : Subclass :=
  match c with PyClass body _ => body end.

Definition direct_subclasses (c : pyclass) : list pyclass :=
  match c with PyClass _ direct => direct end.

(** [c] derives, in one or more steps, from the class whose direct
    subclasses are [direct]. *)
Inductive derives_from : pyclass -> list pyclass -> Prop :=
| derives_directly (c : pyclass) (direct : list pyclass) :
    In c direct -> derives_from c direct
| derives_through (c s : pyclass) (direct : list pyclass) :
    In s direct -> derives_from c (direct_subclasses s) -> derives_from c direct.

(** The number of classes below a class. *)
Fixpoint class_count (c : pyclass) : nat :=
  match c with
  | PyClass _ direct => fold_right (fun s n => S (class_count s) + n) 0 direct
  end.

Module Scan.

(** [subclass._get_subclasses()], the recursive call of the loop. *)
Fixpoint descend (cls : pyclass) : list pyclass :=
  match cls with
  | PyClass _ direct => flat_map (fun subclass => subclass :: descend subclass) direct
  end.

(** [cls._get_subclasses()], from [cls.__subclasses__()]. *)
Definition _get_subclasses (direct : list pyclass) : list pyclass :=
  flat_map (fun subclass => subclass :: descend subclass) direct.

(** [cls.subclasses()]: [cache] is the attribute [_subclasses] before the
    call; the result comes with the attribute as the call leaves it. *)
Definition subclasses (direct : list pyclass) (cache : list pyclass)
  : list pyclass * list pyclass :=
  match cache with
  | [] => let found := _get_subclasses direct in (found, found)
  | _ :: _ => (cache, cache)
  end.

End Scan.

(* ================================================================== *)
(** ** Vocabulary for the further properties *)

(** What iteration [k] of [compute_empirical] appends to the grid list:
    the grid point once for a positive left count and once for a
    positive right count. *)
Definition grid_entries (u v : list pyfloat) (k : nat) : list pyfloat :=
  (if 0 <? left_count u v (grid_point k) then [grid_point k] else [])
  ++ (if 0 <? right_count u v (grid_point k) then [grid_point k] else []).

Definition merged_grid (u v : list pyfloat) : list pyfloat :=
  flat_map (grid_entries u v) (seq 0 COMPUTE_EMPIRICAL_STEPS).

(** [compute_empirical] with the grid left open: [base] stands for the
    array that [np.linspace(0.0, 1.0, COMPUTE_EMPIRICAL_STEPS)] returns,
    whatever its rounding. *)
Definition compute_empirical_on_st (base u v : list pyfloat)
  : Store.St pyfloat (Store.ref * Store.ref * Store.ref * Store.ref) :=
  (z <- Store.new_list ;;
   let z_left := z in let z_right := z in
   l <- Store.new_list ;;
   let L := l in let R := l in
   let N := List.length u in
   Store.for_each (seq 0 COMPUTE_EMPIRICAL_STEPS)
                  (compute_empirical_step u v base N z_left L z_right R) ;;;
   Store.ret (z_left, L, z_right, R))%st.

Definition compute_empirical_on (base u v : list pyfloat)
  : result (list pyfloat * list pyfloat * list pyfloat * list pyfloat) :=
  match compute_empirical_on_st base u v [] with
  | Raise e => Raise e
  | Ret ((z_left, L, z_right, R), h) =>
      Ret (Store.contents h z_left, Store.contents h L,
           Store.contents h z_right, Store.contents h R)
  end.

(** What the iteration at grid value [b] appends to the grid list: [b]
    once for a positive left count and once for a positive right count. *)
Definition entries_at (u v : list pyfloat) (b : pyfloat) : list pyfloat :=
  (if 0 <? left_count u v b then [b] else [])
  ++ (if 0 <? right_count u v b then [b] else []).

Definition merged_on (base u v : list pyfloat) : list pyfloat :=
  flat_map (entries_at u v) base.

(** [lower <= theta <= upper] and [theta not in invalid_thetas]. *)
Definition valid_theta (cls : Subclass) (th : pyfloat) : Prop :=
  fleb (fst (theta_interval cls)) th = true
  /\ fleb th (snd (theta_interval cls)) = true
  /\ float_in th (invalid_thetas cls) = false.

Module Sample2.

(** A Frank-style class with a narrow interval, so that its fit is
    rejected for larger tau. *)
Definition narrow_frank : Subclass :=
  mkSubclass FRANK (Fin 0, Fin 1) [Fin 0]
    (get_theta Sample.frank)
    (cumulative_density Sample.frank)
    (_sample Sample.frank).

Definition subclasses : list Subclass := [Sample.clayton; narrow_frank; Sample.gumbel].

(** A Clayton-style class over the whole parameter range of the Clayton
    family, [[-1, inf]] without [0], so that it fits data with negative
    tau. *)
Definition signed_clayton : Subclass :=
  mkSubclass CLAYTON (Fin (-1), PInf) [Fin 0]
    (get_theta Sample.clayton)
    (cumulative_density Sample.clayton)
    (_sample Sample.clayton).

Definition signed_subclasses : list Subclass :=
  [signed_clayton; Sample.frank; Sample.gumbel].

(** A class tree: Clayton and Frank derive from the base class, Gumbel
    from Frank. *)
Definition tree : list pyclass :=
  [PyClass Sample.clayton []; PyClass Sample.frank [PyClass Sample.gumbel []]].

End Sample2.

(* ================================================================== *)
(** * Properties *)

(** ** Helper facts *)

Lemma CopulaType_eqb_eq (a b : CopulaTypes) :
  CopulaType.eqb a b = true <-> a = b.
Proof.
  destruct a, b; simpl; split; intro H; try reflexivity; discriminate H.
Qed.

Lemma members_upper_name (t : CopulaTypes) :
  CopulaType.members (upper (CopulaType.name t)) = Some t.
Proof. destruct t; reflexivity. Qed.

Lemma members_name (s : string) (t : CopulaTypes) :
  CopulaType.members s = Some t <-> s = CopulaType.name t.
Proof.
  unfold CopulaType.members. split.
  - destruct (String.eqb s "CLAYTON") eqn:E1.
    { apply String.eqb_eq in E1. intro H. injection H as <-. exact E1. }
    destruct (String.eqb s "FRANK") eqn:E2.
    { apply String.eqb_eq in E2. intro H. injection H as <-. exact E2. }
    destruct (String.eqb s "GUMBEL") eqn:E3.
    { apply String.eqb_eq in E3. intro H. injection H as <-. exact E3. }
    discriminate.
  - intros ->. destruct t; reflexivity.
Qed.

Section Registry.

Variable subclasses : list Subclass.

(** A registered class for tag [t] makes the subclass scan succeed, and
    what it finds carries tag [t]. *)
Lemma scan_finds (t : CopulaTypes) :
  (exists c, In c subclasses /\ copula_type c = t) ->
  exists c, find (fun subclass => CopulaType.eqb (copula_type subclass) t) subclasses = Some c
            /\ In c subclasses /\ copula_type c = t.
Proof.
  intros [c0 [Hin Ht]].
  destruct (find (fun subclass => CopulaType.eqb (copula_type subclass) t) subclasses)
    as [c|] eqn:E.
  - exists c. apply find_some in E. destruct E as [Hc He].
    apply CopulaType_eqb_eq in He. auto.
  - exfalso. pose proof (find_none _ _ E c0 Hin) as Hn. simpl in Hn.
    rewrite Ht in Hn. destruct t; discriminate Hn.
Qed.

End Registry.

(* ------------------------------------------------------------------ *)
(** ** Construction (C8) *)

(** C8.  With a subclass registered for each of the three tags, the
    constructor called with a [CopulaTypes] member, or with a string
    whose upper-cased form is the name of a member, builds an unfitted
    instance of a registered class carrying that member as its
    [copula_type]; called with anything else it raises the
    'Invalid copula type' [ValueError]. *)
Theorem construct_resolves_or_rejects (subclasses : list Subclass)
    (Hreg : forall t, exists c, In c subclasses /\ copula_type c = t) :
  (forall t, exists c, construct subclasses (PyEnum t) = Ret (Some (init c))
                       /\ In c subclasses /\ copula_type c = t)
  /\ (forall s t, upper s = CopulaType.name t ->
        exists c, construct subclasses (PyStr s) = Ret (Some (init c))
                  /\ In c subclasses /\ copula_type c = t)
  /\ (forall x, (forall t, x <> PyEnum t) ->
                (forall s t, x = PyStr s -> upper s <> CopulaType.name t) ->
                construct subclasses x = Raise (ValueError InvalidCopulaType)).
Proof.
  split; [|split].
  - intro t. destruct (scan_finds subclasses t (Hreg t)) as [c [Hf [Hin Ht]]].
    exists c. unfold construct, new. simpl. rewrite Hf. auto.
  - intros s t Hs. destruct (scan_finds subclasses t (Hreg t)) as [c [Hf [Hin Ht]]].
    exists c. unfold construct, new.
    assert (Hm : CopulaType.members (upper s) = Some t) by (apply members_name; exact Hs).
    rewrite Hm. simpl. rewrite Hf. auto.
  - intros x Hne Hns. unfold construct, new. destruct x as [|s|t| |]; try reflexivity.
    + destruct (CopulaType.members (upper s)) as [t|] eqn:E; [|reflexivity].
      apply members_name in E. exfalso. exact (Hns s t eq_refl E).
    + exfalso. exact (Hne t eq_refl).
Qed.

Lemma construct_resolves_or_rejects_witness :
  (forall t, exists c, construct Sample.subclasses (PyEnum t) = Ret (Some (init c))
                       /\ In c Sample.subclasses /\ copula_type c = t)
  /\ (forall s t, upper s = CopulaType.name t ->
        exists c, construct Sample.subclasses (PyStr s) = Ret (Some (init c))
                  /\ In c Sample.subclasses /\ copula_type c = t)
  /\ (forall x, (forall t, x <> PyEnum t) ->
                (forall s t, x = PyStr s -> upper s <> CopulaType.name t) ->
                construct Sample.subclasses x = Raise (ValueError InvalidCopulaType)).
Proof.
  apply (construct_resolves_or_rejects Sample.subclasses).
  intro t. destruct t.
  - exists Sample.clayton. simpl. auto.
  - exists Sample.frank. simpl. auto.
  - exists Sample.gumbel. simpl. auto.
Defined.

(** The docstring's example, [Bivariate('frank')]. *)
Example construct_frank_lowercase :
  construct Sample.subclasses (PyStr "frank") = Ret (Some (init Sample.frank)).
Proof. reflexivity. Qed.

Example construct_rejects_unknown :
  construct Sample.subclasses (PyStr "gaussian") = Raise (ValueError InvalidCopulaType)
  /\ construct Sample.subclasses PyNone = Raise (ValueError InvalidCopulaType).
Proof. split; reflexivity. Qed.

(* ------------------------------------------------------------------ *)
(** ** The fitted check (C10, C5) *)

(** C10.  [check_fit] raises [NotFittedError] exactly when the stored
    theta is [None] or a float equal to [0.0]; in particular a model
    whose theta is the number zero is treated as not fitted. *)
Theorem check_fit_raises_iff_none_or_zero (self : Bivariate) :
  (check_fit self = Raise NotFittedError
     <-> theta self = None \/ exists x, theta self = Some x /\ feqb x zero = true)
  /\ (check_fit self = Ret tt
     <-> exists x, theta self = Some x /\ feqb x zero = false)
  /\ (theta self = Some (Fin 0) -> check_fit self = Raise NotFittedError).
Proof.
  unfold check_fit, falsy. destruct (theta self) as [x|].
  - destruct (feqb x zero) eqn:E.
    + split; [|split].
      * split; [intros _; right; exists x; auto | reflexivity].
      * split; [discriminate |].
        intros [y [Hy He]]. injection Hy as <-. congruence.
      * reflexivity.
    + split; [|split].
      * split; [discriminate |].
        intros [H | [y [Hy He]]]; [discriminate | injection Hy as <-; congruence].
      * split; [intros _; exists x; auto | reflexivity].
      * intro H. injection H as ->. discriminate E.
  - split; [|split].
    + split; [intros _; left; reflexivity | reflexivity].
    + split; [discriminate | intros [y [Hy _]]; discriminate].
    + discriminate.
Qed.

(** C5.  On a freshly constructed instance [sample] does not reach any
    fitted check: the comparison of [self.tau], still [None], with [1]
    raises [TypeError], for every class, sample size and generator
    state; no draw is made. *)
Theorem sample_unfitted_raises_type_error
    (rng : Type) (uniform : nat -> rng -> list pyfloat * rng)
    (cls : Subclass) (n_samples : nat) (g : rng) :
  sample uniform (init cls) n_samples g = (Raise TypeError, g)
  /\ fst (sample uniform (init cls) n_samples g) <> Raise NotFittedError.
Proof. split; [reflexivity | discriminate]. Qed.

(* ------------------------------------------------------------------ *)
(** ** Serialisation (C6) *)

(** C6.  For every instance of a registered class, [from_dict] applied
    to its [to_dict] returns an instance with the same family tag, the
    same theta and the same tau. *)
Theorem from_dict_to_dict_roundtrip (subclasses : list Subclass) (m : Bivariate)
    (Hreg : In (klass m) subclasses) :
  exists m', from_dict subclasses (to_dict m) = Ret m'
             /\ copula_type (klass m') = copula_type (klass m)
             /\ theta m' = theta m
             /\ tau m' = tau m.
Proof.
  destruct (scan_finds subclasses (copula_type (klass m))) as [c [Hf [Hin Ht]]].
  { exists (klass m). auto. }
  unfold from_dict, to_dict, construct, new. simpl.
  rewrite members_upper_name. simpl. rewrite Hf. simpl.
  eexists. split; [reflexivity|]. simpl. auto.
Qed.

Lemma from_dict_to_dict_roundtrip_witness :
  exists m', from_dict Sample.subclasses
               (to_dict (mkBivariate Sample.gumbel None None (Some (Fin 3)) (Some NaN))) = Ret m'
             /\ copula_type (klass m') = GUMBEL
             /\ theta m' = Some (Fin 3)
             /\ tau m' = Some NaN.
Proof.
  apply (from_dict_to_dict_roundtrip Sample.subclasses
           (mkBivariate Sample.gumbel None None (Some (Fin 3)) (Some NaN))).
  simpl. auto.
Defined.

(* ------------------------------------------------------------------ *)
(** ** Fitting (C2, C9) *)

Section Fit.

Variable kendalltau : list pyfloat -> list pyfloat -> result pyfloat.

(** The three ways [fit] can end, by the step that stops it. *)
Lemma fit_cases (self : Bivariate) (U V : list pyfloat) :
  let self0 := set_V (set_U self U) V in
  (exists e, kendalltau U V = Raise e /\ fit kendalltau self U V = (Raise e, self0))
  \/ (exists t e, kendalltau U V = Ret t
                  /\ get_theta (klass self) (Some t) = Raise e
                  /\ fit kendalltau self U V = (Raise e, set_tau self0 (Some t)))
  \/ (exists t th, kendalltau U V = Ret t
                   /\ get_theta (klass self) (Some t) = Ret th
                   /\ fit kendalltau self U V
                      = (check_theta (set_theta (set_tau self0 (Some t)) (Some th)),
                         set_theta (set_tau self0 (Some t)) (Some th))).
Proof.
  unfold fit. simpl.
  destruct (kendalltau U V) as [t|e] eqn:Ek.
  - destruct (get_theta (klass self) (Some t)) as [th|e] eqn:Eg.
    + right. right. exists t, th. auto.
    + right. left. exists t, e. auto.
  - left. exists e. auto.
Qed.

End Fit.

(** C2, as the code has it.  [fit] stores tau, then theta, and validates
    last: when it ends in the out-of-limits [ValueError] of
    [check_theta], the instance holds the tau just computed by
    [kendalltau] and the theta just computed from it (the rejected one),
    so both are set.  ([kendalltau] and [get_theta] are library and
    subclass code; they are assumed not to raise that particular
    error themselves.) *)
Theorem fit_invalid_theta_is_stored
    (kendalltau : list pyfloat -> list pyfloat -> result pyfloat)
    (self : Bivariate) (U V : list pyfloat)
    (Hk : kendalltau U V <> Raise (ValueError ThetaOutOfLimits))
    (Hg : forall t, get_theta (klass self) t <> Raise (ValueError ThetaOutOfLimits))
    (Hfail : fst (fit kendalltau self U V) = Raise (ValueError ThetaOutOfLimits)) :
  exists t th,
    kendalltau U V = Ret t
    /\ get_theta (klass self) (Some t) = Ret th
    /\ tau (snd (fit kendalltau self U V)) = Some t
    /\ theta (snd (fit kendalltau self U V)) = Some th
    /\ check_theta (snd (fit kendalltau self U V)) = Raise (ValueError ThetaOutOfLimits).
Proof.
  destruct (fit_cases kendalltau self U V)
    as [[e [Ek Ef]] | [[t [e [Ek [Eg Ef]]]] | [t [th [Ek [Eg Ef]]]]]];
    rewrite Ef in *; simpl in *.
  - congruence.
  - exfalso. apply (Hg (Some t)). congruence.
  - exists t, th. auto.
Qed.

Lemma fit_invalid_theta_is_stored_witness :
  exists t th,
    Sample.kendalltau [Sample.frac 1 10; Sample.frac 1 5] [Sample.frac 1 5; Sample.frac 1 10]
      = Ret t
    /\ get_theta Sample.clayton (Some t) = Ret th
    /\ tau (snd (fit Sample.kendalltau (init Sample.clayton)
                   [Sample.frac 1 10; Sample.frac 1 5] [Sample.frac 1 5; Sample.frac 1 10]))
       = Some t
    /\ theta (snd (fit Sample.kendalltau (init Sample.clayton)
                     [Sample.frac 1 10; Sample.frac 1 5] [Sample.frac 1 5; Sample.frac 1 10]))
       = Some th
    /\ check_theta (snd (fit Sample.kendalltau (init Sample.clayton)
                     [Sample.frac 1 10; Sample.frac 1 5] [Sample.frac 1 5; Sample.frac 1 10]))
       = Raise (ValueError ThetaOutOfLimits).
Proof.
  apply (fit_invalid_theta_is_stored Sample.kendalltau (init Sample.clayton)
           [Sample.frac 1 10; Sample.frac 1 5] [Sample.frac 1 5; Sample.frac 1 10]).
  - vm_compute. discriminate.
  - intros [t|]; simpl; [|discriminate].
    destruct (feqb t one); discriminate.
  - vm_compute. reflexivity.
Defined.

(** C2, as stated, fails: a fresh model of the Clayton-style class
    fitted on two observations in opposite order (tau = -1, theta = -1,
    below the interval) raises the out-of-limits error and is left with
    theta = -1 and tau = -1 instead of the [None] it had before. *)
Lemma fit_failure_overwrites_state :
  let m := init Sample.clayton in
  let r := fit Sample.kendalltau m
             [Sample.frac 1 10; Sample.frac 1 5] [Sample.frac 1 5; Sample.frac 1 10] in
  fst r = Raise (ValueError ThetaOutOfLimits)
  /\ theta m = None /\ tau m = None
  /\ theta (snd r) = Some (Fin (-1)) /\ tau (snd r) = Some (Fin (-1))
  /\ ~ (theta (snd r) = theta m /\ tau (snd r) = tau m).
Proof.
  vm_compute. repeat split; try reflexivity.
  intros [H _]. discriminate H.
Qed.

(** C9, as the code has it.  For sequences of different lengths or of
    fewer than two observations [fit] makes no check of its own: it
    stores [U] and [V] and calls [kendalltau].  If that call raises,
    [fit] ends with the same error and theta and tau are as before.  If
    it returns a number, that number is stored as tau and [fit] goes on:
    to [get_theta], whose error ends [fit] with theta as before, or
    whose result is stored as theta, and then to [check_theta] on the
    instance holding this tau and this theta, whose outcome is the
    outcome of [fit]. *)
Theorem fit_has_no_length_check
    (kendalltau : list pyfloat -> list pyfloat -> result pyfloat)
    (self : Bivariate) (U V : list pyfloat)
    (Hshort : List.length U <> List.length V \/ List.length U < 2) :
  attr_U (snd (fit kendalltau self U V)) = Some U
  /\ attr_V (snd (fit kendalltau self U V)) = Some V
  /\ (forall e, kendalltau U V = Raise e ->
        fst (fit kendalltau self U V) = Raise e
        /\ theta (snd (fit kendalltau self U V)) = theta self
        /\ tau (snd (fit kendalltau self U V)) = tau self)
  /\ (forall t, kendalltau U V = Ret t ->
        tau (snd (fit kendalltau self U V)) = Some t
        /\ (forall e, get_theta (klass self) (Some t) = Raise e ->
              fst (fit kendalltau self U V) = Raise e
              /\ theta (snd (fit kendalltau self U V)) = theta self)
        /\ (forall th, get_theta (klass self) (Some t) = Ret th ->
              theta (snd (fit kendalltau self U V)) = Some th
              /\ fst (fit kendalltau self U V)
                 = check_theta
                     (mkBivariate (klass self) (Some U) (Some V) (Some th) (Some t)))).
Proof.
  destruct (fit_cases kendalltau self U V)
    as [[e [Ek Ef]] | [[t [e [Ek [Eg Ef]]]] | [t [th [Ek [Eg Ef]]]]]];
    rewrite Ef; simpl.
  - repeat split; intros; congruence.
  - split; [reflexivity|]. split; [reflexivity|]. split; [intros; congruence|].
    intros t' Ht. assert (t' = t) by congruence. subst t'.
    split; [reflexivity|]. split.
    + intros e' He. split; [congruence | reflexivity].
    + intros th Hth. congruence.
  - split; [reflexivity|]. split; [reflexivity|]. split; [intros; congruence|].
    intros t' Ht. assert (t' = t) by congruence. subst t'.
    split; [reflexivity|]. split.
    + intros e He. congruence.
    + intros th' Hth. assert (th' = th) by congruence. subst th'.
      split; reflexivity.
Qed.

Lemma fit_has_no_length_check_witness :
  let U := [Sample.frac 1 2] in
  let V := [Sample.frac 1 2] in
  let r := fit Sample.kendalltau (init Sample.gumbel) U V in
  attr_U (snd r) = Some U
  /\ attr_V (snd r) = Some V
  /\ (forall e, Sample.kendalltau U V = Raise e ->
        fst r = Raise e /\ theta (snd r) = None /\ tau (snd r) = None)
  /\ (forall t, Sample.kendalltau U V = Ret t ->
        tau (snd r) = Some t
        /\ (forall e, get_theta Sample.gumbel (Some t) = Raise e ->
              fst r = Raise e /\ theta (snd r) = None)
        /\ (forall th, get_theta Sample.gumbel (Some t) = Ret th ->
              theta (snd r) = Some th
              /\ fst r = check_theta (mkBivariate Sample.gumbel (Some U) (Some V)
                                        (Some th) (Some t)))).
Proof.
  intros U V.
  apply (fit_has_no_length_check Sample.kendalltau (init Sample.gumbel) U V).
  right. simpl. lia.
Defined.

(** On that input every step is taken: [kendalltau] returns [nan],
    [get_theta] returns [nan], both are stored and [check_theta]
    raises. *)
Example fit_single_observation :
  let U := [Sample.frac 1 2] in
  Sample.kendalltau U U = Ret NaN
  /\ get_theta Sample.gumbel (Some NaN) = Ret NaN
  /\ fit Sample.kendalltau (init Sample.gumbel) U U
     = (Raise (ValueError ThetaOutOfLimits),
        mkBivariate Sample.gumbel (Some U) (Some U) (Some NaN) (Some NaN)).
Proof. vm_compute. repeat split; reflexivity. Qed.

(** C9, as stated, fails: on a single observation [kendalltau] returns
    [nan] (as scipy does), [fit] stores it as tau, computes and stores
    theta, and only then fails, with the out-of-limits error of
    [check_theta]. *)
Lemma fit_short_input_stores_tau :
  let m := init Sample.clayton in
  let r := fit Sample.kendalltau m [Sample.frac 1 2] [Sample.frac 1 2] in
  List.length [Sample.frac 1 2] < 2
  /\ tau m = None /\ theta m = None
  /\ fst r = Raise (ValueError ThetaOutOfLimits)
  /\ tau (snd r) = Some NaN
  /\ theta (snd r) = Some NaN.
Proof. vm_compute. repeat split; try reflexivity; lia. Qed.

(* ------------------------------------------------------------------ *)
(** ** Selection, the branch for non-positive tau (C3) *)

(** The Clayton fit is not guarded: when it raises, so does
    [select_copula], whatever the tau. *)
Lemma select_copula_clayton_failure_propagates
    (kendalltau : list pyfloat -> list pyfloat -> result pyfloat)
    (subclasses : list Subclass) (U V : list pyfloat) (e : exn) :
  fitted kendalltau subclasses CLAYTON U V = Raise e ->
  select_copula kendalltau subclasses U V = Raise e.
Proof. intro H. unfold select_copula. rewrite H. reflexivity. Qed.

(* ------------------------------------------------------------------ *)
(** ** Arithmetic of the float model *)

Section FloatFacts.

Local Open Scope Q_scope.

Lemma fleb_trans (a b c : pyfloat) :
  fleb a b = true -> fleb b c = true -> fleb a c = true.
Proof.
  destruct a as [p| | |], b as [q| | |], c as [r| | |]; simpl;
    try reflexivity; try discriminate.
  intros H1 H2. apply Qle_bool_iff in H1. apply Qle_bool_iff in H2.
  apply Qle_bool_iff. eapply Qle_trans; eassumption.
Qed.

Lemma fgtb_Fin_zero (a : Q) : fgtb (Fin a) zero = true <-> 0 < a.
Proof.
  unfold fgtb, fltb, zero. simpl. rewrite andb_true_iff, negb_true_iff.
  rewrite Qle_bool_iff. split.
  - intros [Hle Hne]. apply Qlt_leneq. split; [exact Hle|].
    intro Heq. apply Qeq_bool_iff in Heq. congruence.
  - intro Hlt. apply Qlt_leneq in Hlt. destruct Hlt as [Hle Hne]. split; [exact Hle|].
    destruct (Qeq_bool 0 a) eqn:E; [|reflexivity].
    apply Qeq_bool_iff in E. contradiction.
Qed.

(** A count divided by a positive length is a finite number, positive
    exactly when the count is. *)
Lemma fraction_value (c N : nat) :
  (0 < N)%nat ->
  exists a, fdiv (of_nat c) (of_nat N) = Fin a
            /\ (fgtb (Fin a) zero = true <-> (0 < c)%nat).
Proof.
  intro HN. destruct N as [|n]; [lia|].
  exists (Qred ((Z.of_nat c # 1) / (Z.of_nat (S n) # 1))). split.
  - unfold fdiv, of_nat, Qsign. reflexivity.
  - rewrite fgtb_Fin_zero. rewrite Qred_correct.
    rewrite Nat2Z.inj_succ. unfold Qdiv, Qinv, Qlt, Qmult. simpl.
    destruct (Z.of_nat n) eqn:En; simpl; try lia.
Qed.

Lemma tail_entry_nonneg (a q : Q) :
  0 < a -> is_nonneg (fdiv (Fin a) (fsquare (Fin q))) = true.
Proof.
  intro Ha. unfold fsquare, fmul, fdiv, Qsign.
  assert (Hd : Qred (q * q) == q * q) by apply Qred_correct.
  set (d := Qred (q * q)) in *.
  destruct (Qcompare_spec 0 d) as [He|Hl|Hg].
  - destruct (Qcompare_spec 0 a) as [He'|Hl'|Hg']; try reflexivity.
    + rewrite <- He' in Ha. exfalso. exact (Qlt_irrefl _ Ha).
    + exfalso. exact (Qlt_irrefl _ (Qlt_trans _ _ _ Ha Hg')).
  - unfold is_nonneg, zero, fleb. apply Qle_bool_iff. rewrite Qred_correct.
    apply Qlt_le_weak. apply Qlt_shift_div_l; [exact Hl|].
    rewrite Qmult_0_l. exact Ha.
  - exfalso. rewrite Hd in Hg.
    apply (Qlt_not_le _ _ Hg). unfold Qle, Qmult. simpl. nia.
Qed.

Lemma tail_entry_finite (a q : Q) :
  ~ q == 0 -> is_finite (fdiv (Fin a) (fsquare (Fin q))) = true.
Proof.
  intro Hq. unfold fsquare, fmul, fdiv, Qsign.
  assert (Hd : Qred (q * q) == q * q) by apply Qred_correct.
  set (d := Qred (q * q)) in *.
  destruct (Qcompare_spec 0 d) as [He|Hl|Hg]; try reflexivity.
  exfalso. rewrite Hd in He. symmetry in He.
  apply Qmult_integral in He. tauto.
Qed.

End FloatFacts.

(* ------------------------------------------------------------------ *)
(** ** Counting observations and the grid *)

Lemma count_true_pos {A} (f : A -> bool) (l : list A) :
  0 < count_true (map f l) <-> exists p, In p l /\ f p = true.
Proof.
  unfold count_true. induction l as [|x l IH]; simpl.
  - split; [lia | intros [p [[] _]]].
  - destruct (f x) eqn:E; simpl.
    + split; [intros _; exists x; auto | lia].
    + rewrite IH. split.
      * intros [p [Hin Hp]]. exists p. auto.
      * intros [p [[->|Hin] Hp]]; [congruence | exists p; auto].
Qed.

(** The right count does not grow along the grid. *)
Lemma right_count_mono (u v : list pyfloat) (z1 z2 : pyfloat) :
  fleb z1 z2 = true -> 0 < right_count u v z2 -> 0 < right_count u v z1.
Proof.
  intros Hle. unfold right_count. rewrite !count_true_pos.
  intros [p [Hin Hp]]. exists p. split; [exact Hin|].
  apply andb_true_iff in Hp. destruct Hp as [H1 H2]. unfold fgeb in *.
  apply andb_true_iff. split; eapply fleb_trans; eassumption.
Qed.

Lemma grid_is_grid_points : grid = map grid_point (seq 0 COMPUTE_EMPIRICAL_STEPS).
Proof. vm_compute. reflexivity. Qed.

Lemma grid_nth (k : nat) :
  k < COMPUTE_EMPIRICAL_STEPS -> nth_error grid k = Some (grid_point k).
Proof.
  intro Hk. rewrite grid_is_grid_points.
  rewrite nth_error_map.
  assert (Hs : nth_error (seq 0 COMPUTE_EMPIRICAL_STEPS) k = Some k).
  { rewrite (nth_error_nth' _ 0) by (rewrite length_seq; exact Hk).
    rewrite seq_nth by exact Hk. reflexivity. }
  rewrite Hs. reflexivity.
Qed.

Lemma grid_point_le (j k : nat) :
  j <= k -> fleb (grid_point j) (grid_point k) = true.
Proof.
  intro H. unfold grid_point, fleb. apply Qle_bool_iff.
  rewrite !Qred_correct. unfold Qle. simpl. lia.
Qed.

Lemma grid_point_0 : grid_point 0 = zero.
Proof. reflexivity. Qed.

Lemma grid_point_49 : grid_point 49 = one.
Proof. reflexivity. Qed.

(** Dividing a positive fraction by the square of a grid point. *)
Lemma left_entry_facts (a : Q) (k : nat) :
  (0 < a)%Q ->
  is_nonneg (fdiv (Fin a) (fsquare (grid_point k))) = true
  /\ (k <> 0 -> is_finite (fdiv (Fin a) (fsquare (grid_point k))) = true).
Proof.
  intro Ha. unfold grid_point. split.
  - apply tail_entry_nonneg. exact Ha.
  - intro Hk. apply tail_entry_finite. rewrite Qred_correct.
    unfold Qeq. simpl. lia.
Qed.

(** Dividing it by the square of one minus a grid point. *)
Lemma right_entry_facts (a : Q) (j : nat) :
  (0 < a)%Q ->
  is_nonneg (fdiv (Fin a) (fsquare (fsub one (grid_point j)))) = true
  /\ (j <> 49 -> is_finite (fdiv (Fin a) (fsquare (fsub one (grid_point j)))) = true).
Proof.
  intro Ha. unfold grid_point, fsub, fneg, fadd, one. split.
  - apply tail_entry_nonneg. exact Ha.
  - intro Hj. apply tail_entry_finite. rewrite !Qred_correct.
    unfold Qeq, Qplus, Qopp. cbn [Qnum Qden]. lia.
Qed.

(* ------------------------------------------------------------------ *)
(** ** The loop of [compute_empirical] *)

Lemma broadcast2_masks (f g : pyfloat -> bool) (u v : list pyfloat) :
  List.length u = List.length v ->
  Numpy.broadcast2 andb (map f u) (map g v)
  = Ret (map (fun p => f (fst p) && g (snd p)) (combine u v)).
Proof.
  intro Hlen. unfold Numpy.broadcast2.
  rewrite !length_map, Hlen, Nat.eqb_refl. f_equal.
  clear Hlen. revert v. induction u as [|x u IH]; intros [|y v]; simpl; try reflexivity.
  f_equal. apply IH.
Qed.

Lemma fraction_nonempty (mask : list bool) (N : nat) :
  0 < N -> fraction mask N = Ret (fdiv (of_nat (count_true mask)) (of_nat N)).
Proof. intro H. destruct N; [lia|]. destruct mask; reflexivity. Qed.

Section Loop.

Variables u v : list pyfloat.
Hypothesis Hlen : List.length u = List.length v.
Hypothesis Hne : u <> [].

Lemma observations_positive : 0 < List.length u.
Proof. destruct u; [congruence | simpl; lia]. Qed.

(** One iteration, run on the store that holds the two list objects. *)
Lemma step_runs (base : list pyfloat) (k : nat) (bk : pyfloat) (z E : list pyfloat) :
  nth_error base k = Some bk ->
  compute_empirical_step u v base (List.length u) 0 1 0 1 k [z; E]
  = match step_effect u v k bk z E with
    | Ret (z', E') => Ret (tt, [z'; E'])
    | Raise e => Raise e
    end.
Proof.
  intro Hb. unfold compute_empirical_step, step_effect, Store.bind, Store.lift.
  rewrite Hb. rewrite !broadcast2_masks by exact Hlen. cbn [rbind].
  rewrite !fraction_nonempty by exact observations_positive.
  fold (left_count u v bk). fold (right_count u v bk).
  destruct (fgtb (fdiv (of_nat (left_count u v bk)) (of_nat (List.length u))) zero);
    destruct (fgtb (fdiv (of_nat (right_count u v bk)) (of_nat (List.length u))) zero);
    unfold Store.append, Store.getitem, Store.ret, Store.contents;
    cbn [Store.update nth]; try reflexivity.
  - destruct (nth_error ((z ++ [bk]) ++ [bk]) k); reflexivity.
  - destruct (nth_error (z ++ [bk]) k); reflexivity.
Qed.

Lemma step_keeps_invariant (a : nat) (z E : list pyfloat) :
  a < COMPUTE_EMPIRICAL_STEPS ->
  loop_invariant u v a z E ->
  exists z' E', step_effect u v a (grid_point a) z E = Ret (z', E')
                /\ loop_invariant u v (S a) z' E'.
Proof.
  intros Ha (Hl & Hnn & Hg & Hcnt & Hfin).
  unfold step_effect.
  destruct (fraction_value (left_count u v (grid_point a)) (List.length u) observations_positive)
    as [al [El Hlpos]].
  destruct (fraction_value (right_count u v (grid_point a)) (List.length u) observations_positive)
    as [ar [Er Hrpos]].
  rewrite El, Er.
  set (z1 := if fgtb (Fin al) zero then z ++ [grid_point a] else z).
  set (E1 := if fgtb (Fin al) zero
             then E ++ [fdiv (Fin al) (fsquare (grid_point a))] else E).
  (* the state after the left-tail half of the iteration *)
  assert (H1 : List.length z1 = List.length E1
               /\ List.length z <= List.length z1
               /\ Forall (fun x => is_nonneg x = true) E1
               /\ Forall (fun x => exists j, j < S a /\ x = grid_point j) z1
               /\ (left_count u v zero = 0 -> right_count u v one = 0 ->
                   Forall (fun x => is_finite x = true) E1)).
  { assert (Hg' : Forall (fun x => exists j, j < S a /\ x = grid_point j) z).
    { eapply Forall_impl; [|exact Hg]. intros x [j [Hj ->]]. exists j. split; [lia|reflexivity]. }
    subst z1 E1. destruct (fgtb (Fin al) zero) eqn:Egl.
    - apply fgtb_Fin_zero in Egl as Hal.
      destruct (left_entry_facts al a Hal) as [Hn Hf].
      rewrite !length_app. simpl. repeat split.
      + lia.
      + lia.
      + apply Forall_app. split; [exact Hnn | constructor; [exact Hn | constructor]].
      + apply Forall_app. split; [exact Hg'|].
        constructor; [|constructor]. exists a. split; [lia|reflexivity].
      + intros C0 C1. apply Forall_app. split; [exact (Hfin C0 C1)|].
        constructor; [|constructor]. apply Hf. intros ->.
        rewrite grid_point_0 in Hlpos. pose proof (proj1 Hlpos eq_refl). lia.
    - repeat split; auto. }
  destruct H1 as (Hl1 & Hz1 & Hnn1 & Hg1 & Hfin1).
  destruct (fgtb (Fin ar) zero) eqn:Egr.
  - (* the right count is positive here, hence at every earlier grid point *)
    apply fgtb_Fin_zero in Egr as Har.
    assert (Hrc : 0 < right_count u v (grid_point a)) by (apply Hrpos; reflexivity).
    assert (Hearlier : forall j, j < a -> 0 < right_count u v (grid_point j)).
    { intros j Hj. apply (right_count_mono u v (grid_point j) (grid_point a)); [|exact Hrc].
      apply grid_point_le. lia. }
    assert (Hlong : a < List.length (z1 ++ [grid_point a])).
    { rewrite length_app. simpl. specialize (Hcnt Hearlier). lia. }
    destruct (nth_error (z1 ++ [grid_point a]) a) as [zk|] eqn:Ezk;
      [|apply nth_error_None in Ezk; lia].
    assert (Hgz : Forall (fun x => exists j, j < S a /\ x = grid_point j)
                         (z1 ++ [grid_point a])).
    { apply Forall_app. split; [exact Hg1|].
      constructor; [|constructor]. exists a. split; [lia|reflexivity]. }
    assert (Hzk : exists j, j < S a /\ zk = grid_point j).
    { apply nth_error_In in Ezk. rewrite Forall_forall in Hgz. exact (Hgz zk Ezk). }
    destruct Hzk as [j [Hj ->]].
    destruct (right_entry_facts ar j Har) as [Hn Hf].
    eexists _, _. split; [reflexivity|].
    unfold loop_invariant. rewrite !length_app. simpl. repeat split.
    + lia.
    + apply Forall_app. split; [exact Hnn1 | constructor; [exact Hn | constructor]].
    + exact Hgz.
    + intros _. specialize (Hcnt Hearlier). lia.
    + intros C0 C1. apply Forall_app. split; [exact (Hfin1 C0 C1)|].
      constructor; [|constructor]. apply Hf. intros ->.
      assert (a = 49) by (unfold COMPUTE_EMPIRICAL_STEPS in Ha; lia). subst a.
      rewrite grid_point_49 in Hrc. lia.
  - exists z1, E1. split; [reflexivity|].
    unfold loop_invariant. repeat split; auto.
    intros Hall. specialize (Hall a (Nat.lt_succ_diag_r a)).
    apply Hrpos in Hall. discriminate Hall.
Qed.

Lemma loop_runs (n a : nat) (z E : list pyfloat) :
  a + n <= COMPUTE_EMPIRICAL_STEPS ->
  loop_invariant u v a z E ->
  exists z' E',
    Store.for_each (seq a n) (compute_empirical_step u v grid (List.length u) 0 1 0 1) [z; E]
    = Ret (tt, [z'; E'])
    /\ loop_invariant u v (a + n) z' E'.
Proof.
  revert a z E. induction n as [|n IH]; intros a z E Hb Hinv.
  - exists z, E. rewrite Nat.add_0_r. split; [reflexivity | exact Hinv].
  - destruct (step_keeps_invariant a z E) as [z1 [E1 [Hs Hinv1]]]; [lia | exact Hinv |].
    destruct (IH (S a) z1 E1) as [z' [E' [Hr Hinv']]]; [lia | exact Hinv1 |].
    exists z', E'. split.
    + cbn [seq Store.for_each]. unfold Store.bind at 1.
      rewrite (step_runs grid a (grid_point a)) by (apply grid_nth; lia).
      rewrite Hs. exact Hr.
    + replace (a + S n) with (S a + n) by lia. exact Hinv'.
Qed.

End Loop.

(* ------------------------------------------------------------------ *)
(** ** The empirical tail estimator (C7, C4) *)

(** C7, as the code has it.  For two sequences of the same, non-zero
    length [compute_empirical] returns; what it returns as [z_left] and
    [z_right] is one list and what it returns as [L] and [R] is one
    list, of the same length as the first; every entry of [L] and [R] is
    non-negative; and every entry is finite when no observation has both
    coordinates [<= 0] and none has both [>= 1]. *)
Theorem compute_empirical_lengths_and_signs (u v : list pyfloat)
    (Hlen : List.length u = List.length v) (Hne : u <> []) :
  exists z E,
    compute_empirical u v = Ret (z, E, z, E)
    /\ List.length z = List.length E
    /\ Forall (fun x => is_nonneg x = true) E
    /\ (left_count u v zero = 0 -> right_count u v one = 0 ->
        Forall (fun x => is_finite x = true) E).
Proof.
  destruct (loop_runs u v Hlen Hne COMPUTE_EMPIRICAL_STEPS 0 [] []) as [z [E [Hrun Hinv]]].
  - simpl. lia.
  - unfold loop_invariant. simpl. repeat split; auto.
  - exists z, E. destruct Hinv as (Hl & Hnn & _ & _ & Hfin). split; [|auto].
    unfold compute_empirical, compute_empirical_st, Store.bind, Store.new_list, Store.ret.
    cbn [List.length app]. fold grid. rewrite Hrun. reflexivity.
Qed.

Lemma compute_empirical_lengths_and_signs_witness :
  exists z E,
    compute_empirical [Sample.frac 1 10; Sample.frac 9 10] [Sample.frac 1 10; Sample.frac 9 10]
      = Ret (z, E, z, E)
    /\ List.length z = List.length E
    /\ Forall (fun x => is_nonneg x = true) E
    /\ (left_count [Sample.frac 1 10; Sample.frac 9 10]
                   [Sample.frac 1 10; Sample.frac 9 10] zero = 0 ->
        right_count [Sample.frac 1 10; Sample.frac 9 10]
                    [Sample.frac 1 10; Sample.frac 9 10] one = 0 ->
        Forall (fun x => is_finite x = true) E).
Proof.
  apply (compute_empirical_lengths_and_signs
           [Sample.frac 1 10; Sample.frac 9 10] [Sample.frac 1 10; Sample.frac 9 10]).
  - reflexivity.
  - discriminate.
Defined.

(** C7, as stated, fails.  With an observation at the origin the left
    count at the first grid point, [z = 0], is positive and the entry
    appended to [L] is that count divided by [0.0 ** 2]: infinite.  And
    on two empty sequences the first division, [0 / N] with [N = 0],
    raises. *)
Lemma compute_empirical_infinite_entry :
  let u := [Fin 0; Sample.frac 1 2] in
  0 < left_count u u (grid_point 0)
  /\ match compute_empirical u u with
     | Ret (_, L, _, _) => nth_error L 0 = Some PInf /\ is_finite PInf = false
     | Raise _ => False
     end
  /\ compute_empirical [] [] = Raise ZeroDivisionError.
Proof. vm_compute. repeat split; auto. Qed.

(** C4, on the observations [(0.1, 0.1)] and [(0.9, 0.9)].  Up to grid
    point [5/49] the shared list behind [z_left] and [z_right] has
    received seven entries.  At grid point [z = 6/49] the right count is
    [1/2]; the code appends [z] twice (once per tail) and divides the
    right count by [(1 - z_right[6])^2], where [z_right[6]] is the entry
    [5/49] appended one iteration earlier: it appends [2401/3872], not
    [(1/2) / (1 - 6/49)^2 = 2401/3698]. *)
Theorem compute_empirical_right_denominator_shifted :
  let u := [Sample.frac 1 10; Sample.frac 9 10] in
  let step := compute_empirical_step u u grid (List.length u) 0 1 0 1 in
  match Store.for_each (seq 0 6) step [[]; []] with
  | Ret (_, h5) =>
      match step 6 h5 with
      | Ret (_, h6) =>
          List.length (Store.contents h5 0) = 7
          /\ Store.contents h6 0
             = Store.contents h5 0 ++ [grid_point 6; grid_point 6]
          /\ nth_error (Store.contents h6 0) 6 = Some (grid_point 5)
          /\ Store.contents h6 1
             = Store.contents h5 1 ++ [Fin (2401 # 72); Fin (2401 # 3872)]
      | Raise _ => False
      end
  | Raise _ => False
  end
  /\ fdiv (of_nat (right_count u u (grid_point 6))) (of_nat (List.length u)) = Sample.frac 1 2
  /\ fdiv (Sample.frac 1 2) (fsquare (fsub one (grid_point 6))) = Fin (2401 # 3698)
  /\ fdiv (Sample.frac 1 2) (fsquare (fsub one (grid_point 5))) = Fin (2401 # 3872).
Proof. vm_compute. repeat split; reflexivity. Qed.

(* ------------------------------------------------------------------ *)
(** ** Selection, the general branch (C1) *)

Lemma mapM_length {A B} (f : A -> result B) (xs : list A) (ys : list B) :
  mapM f xs = Ret ys -> List.length ys = List.length xs.
Proof.
  revert ys. induction xs as [|x xs IH]; simpl; intros ys H.
  - injection H as <-. reflexivity.
  - destruct (f x) as [y|e]; [|discriminate].
    destruct (mapM f xs) as [ys'|e]; [|discriminate].
    injection H as <-. simpl. f_equal. apply IH. reflexivity.
Qed.

(** A loop that appends one computed array per copula to the list
    object at reference 0. *)
Lemma append_loop_runs (f : Bivariate -> result (list pyfloat))
    (copulas : list Bivariate) (acc : list (list pyfloat)) :
  Store.for_each copulas
    (fun copula => Store.bind (Store.lift (f copula)) (fun x => Store.append 0 x)) [acc]
  = match mapM f copulas with
    | Ret xs => Ret (tt, [acc ++ xs])
    | Raise e => Raise e
    end.
Proof.
  revert acc. induction copulas as [|c cs IH]; intro acc.
  - simpl. unfold Store.ret. rewrite app_nil_r. reflexivity.
  - cbn [Store.for_each mapM]. unfold Store.bind at 1 2. unfold Store.lift at 1.
    destruct (f c) as [x|e]; [|reflexivity].
    unfold Store.append at 1. cbn [Store.contents Store.update nth].
    rewrite IH. destruct (mapM f cs) as [xs|e]; [|reflexivity].
    rewrite <- app_assoc. reflexivity.
Qed.

(** [get_dependences] hands back one list twice: the left curves of all
    candidates followed by their right curves. *)
Lemma get_dependences_shares_one_list
    (copulas : list Bivariate) (z_left z_right : list pyfloat)
    (l r : list (list pyfloat)) :
  get_dependences copulas z_left z_right = Ret (l, r) ->
  l = r /\ List.length l = 2 * List.length copulas.
Proof.
  unfold get_dependences, get_dependences_st.
  unfold Store.bind at 1. unfold Store.new_list. cbn [List.length app].
  unfold Store.bind at 1. rewrite append_loop_runs.
  match goal with
  | |- context [mapM ?f copulas] => destruct (mapM f copulas) as [ls|e] eqn:El
  end; [|discriminate].
  unfold Store.bind at 1. rewrite append_loop_runs.
  match goal with
  | |- context [mapM ?f copulas] => destruct (mapM f copulas) as [rs|e] eqn:Er
  end; [|discriminate].
  unfold Store.ret, Store.contents. cbn [nth app].
  intro H. injection H as <- <-. split; [reflexivity|].
  rewrite length_app, (mapM_length _ _ _ El), (mapM_length _ _ _ Er). lia.
Qed.

(** C1, on three observations with Kendall's tau [1/3], for which all
    three candidates fit.  Scored as described (left deviations plus
    right deviations per candidate) the Frank-style candidate has the
    largest score.  The code returns the Clayton one: the two lists of
    curves it scores are one shared list of [2 n] curves, and the shared
    grid list makes each of them undefined at one end ([0/0] at [z = 0]
    for a left curve, at [z = 1] for a right curve), so every cost is
    [nan] and [argmax] answers [0]. *)
Theorem select_copula_ignores_scores :
  let U := [Sample.frac 1 5; Sample.frac 1 2; Sample.frac 4 5] in
  let V := [Sample.frac 1 2; Sample.frac 1 5; Sample.frac 4 5] in
  let fitted' := fun t => fitted Sample.kendalltau Sample.subclasses t U V in
  Sample.kendalltau U V = Ret (Sample.frac 1 3)
  /\ select_copula Sample.kendalltau Sample.subclasses U V = Ret (CLAYTON, Some (Fin 1))
  /\ match fitted' CLAYTON, fitted' FRANK, fitted' GUMBEL with
     | Ret clayton, Ret frank, Ret gumbel =>
         Described.select_among [clayton; frank; gumbel] U V = Ret (FRANK, Some (Fin 3))
         /\ match compute_empirical U V with
            | Ret (z_left, L, z_right, R) =>
                match get_dependences [clayton; frank; gumbel] z_left z_right with
                | Ret (left_dependence, right_dependence) =>
                    left_dependence = right_dependence
                    /\ List.length left_dependence = 6
                    /\ costs L left_dependence = Ret [NaN; NaN; NaN; NaN; NaN; NaN]
                | Raise _ => False
                end
            | Raise _ => False
            end
     | _, _, _ => False
     end.
Proof. vm_compute. repeat split; reflexivity. Qed.

(* ================================================================== *)
(** * Further properties *)

(* ------------------------------------------------------------------ *)
(** ** Fitting *)

Section FitFurther.

Variable kendalltau : list pyfloat -> list pyfloat -> result pyfloat.

Lemma check_theta_ok (m : Bivariate) :
  check_theta m = Ret tt -> exists th, theta m = Some th /\ valid_theta (klass m) th.
Proof.
  unfold check_theta, valid_theta.
  destruct (theta_interval (klass m)) as [lower upper]. simpl.
  destruct (theta m) as [th|]; [|discriminate].
  destruct (fleb lower th) eqn:H1; [|discriminate].
  destruct (fleb th upper) eqn:H2; [|discriminate]. simpl.
  destruct (float_in th (invalid_thetas (klass m))) eqn:H3; [discriminate|].
  intros _. exists th. auto.
Qed.

Lemma fit_success_inversion (self : Bivariate) (U V : list pyfloat)
    (Hok : fst (fit kendalltau self U V) = Ret tt) :
  exists t th,
    kendalltau U V = Ret t
    /\ get_theta (klass self) (Some t) = Ret th
    /\ snd (fit kendalltau self U V)
       = mkBivariate (klass self) (Some U) (Some V) (Some th) (Some t)
    /\ valid_theta (klass self) th.
Proof.
  destruct (fit_cases kendalltau self U V)
    as [[e [Ek Ef]] | [[t [e [Ek [Eg Ef]]]] | [t [th [Ek [Eg Ef]]]]]];
    rewrite Ef in *; simpl in Hok; try discriminate.
  apply check_theta_ok in Hok. destruct Hok as [th' [Hth Hv]].
  simpl in Hth. injection Hth as <-. exists t, th. auto.
Qed.

(** A fit that succeeds leaves a fully determined instance: the data,
    the tau returned by [kendalltau], and the theta computed from it,
    which lies within the interval of the class and is none of its
    forbidden values. *)
Theorem fit_success_state (self : Bivariate) (U V : list pyfloat)
    (Hok : fst (fit kendalltau self U V) = Ret tt) :
  exists t th,
    kendalltau U V = Ret t
    /\ get_theta (klass self) (Some t) = Ret th
    /\ snd (fit kendalltau self U V)
       = mkBivariate (klass self) (Some U) (Some V) (Some th) (Some t)
    /\ valid_theta (klass self) th.
Proof.
  unfold fit in *. simpl in *.
  destruct (kendalltau U V) as [t|e] eqn:Ek; [|discriminate Hok].
  simpl in *.
  destruct (get_theta (klass self) (Some t)) as [th|e] eqn:Eg; [|discriminate Hok].
  simpl in *. exists t, th.
  split; [reflexivity|]. split; [exact Eg|]. split; [reflexivity|].
  (* the last step of [fit] was [check_theta], and it passed *)
  destruct (check_theta_ok _ Hok) as [th' [Hth Hv]].
  simpl in Hth. injection Hth as <-. exact Hv.
Qed.

(** Fitting again on the same data changes nothing: the second call
    ends the same way and leaves the same instance, whether the first
    one succeeded or raised. *)
Theorem fit_twice (self : Bivariate) (U V : list pyfloat) :
  fit kendalltau (snd (fit kendalltau self U V)) U V = fit kendalltau self U V.
Proof.
  unfold fit. simpl.
  destruct (kendalltau U V) as [t|e] eqn:Ek; simpl; rewrite ?Ek; [|reflexivity].
  destruct (get_theta (klass self) (Some t)) as [th|e] eqn:Eg;
    simpl; rewrite ?Ek; simpl; rewrite ?Eg; reflexivity.
Qed.

(** After a successful fit [check_fit] still raises when the fitted
    theta is zero (a value a class may allow), and passes otherwise. *)
Theorem fit_success_then_check_fit (self : Bivariate) (U V : list pyfloat)
    (Hok : fst (fit kendalltau self U V) = Ret tt) :
  exists th,
    theta (snd (fit kendalltau self U V)) = Some th
    /\ valid_theta (klass self) th
    /\ check_fit (snd (fit kendalltau self U V))
       = if feqb th zero then Raise NotFittedError else Ret tt.
Proof.
  destruct (fit_success_inversion self U V Hok) as [t [th [_ [_ [Hs Hv]]]]].
  exists th. rewrite Hs. simpl. split; [reflexivity|]. split; [exact Hv|].
  unfold check_fit, falsy. simpl. reflexivity.
Qed.

(** A theta that is not a number never survives a fit: whatever the
    interval of the class, [check_theta] rejects it, after it has been
    stored. *)
Theorem fit_rejects_nan_theta (self : Bivariate) (U V : list pyfloat) (t : pyfloat)
    (Hk : kendalltau U V = Ret t)
    (Hg : get_theta (klass self) (Some t) = Ret NaN) :
  fit kendalltau self U V
  = (Raise (ValueError ThetaOutOfLimits),
     mkBivariate (klass self) (Some U) (Some V) (Some NaN) (Some t)).
Proof.
  unfold fit. rewrite Hk. simpl. rewrite Hg. unfold check_theta. simpl.
  destruct (theta_interval (klass self)) as [lower upper].
  destruct lower; reflexivity.
Qed.

End FitFurther.

Lemma fit_success_state_witness :
  exists t th,
    Sample.kendalltau [Sample.frac 1 5; Sample.frac 1 2; Sample.frac 4 5]
                      [Sample.frac 1 2; Sample.frac 1 5; Sample.frac 4 5] = Ret t
    /\ get_theta Sample.gumbel (Some t) = Ret th
    /\ snd (fit Sample.kendalltau (init Sample.gumbel)
              [Sample.frac 1 5; Sample.frac 1 2; Sample.frac 4 5]
              [Sample.frac 1 2; Sample.frac 1 5; Sample.frac 4 5])
       = mkBivariate Sample.gumbel
           (Some [Sample.frac 1 5; Sample.frac 1 2; Sample.frac 4 5])
           (Some [Sample.frac 1 2; Sample.frac 1 5; Sample.frac 4 5]) (Some th) (Some t)
    /\ valid_theta Sample.gumbel th.
Proof.
  apply (fit_success_state Sample.kendalltau (init Sample.gumbel)
           [Sample.frac 1 5; Sample.frac 1 2; Sample.frac 4 5]
           [Sample.frac 1 2; Sample.frac 1 5; Sample.frac 4 5]).
  vm_compute. reflexivity.
Defined.

Lemma fit_success_then_check_fit_witness :
  let U := [Sample.frac 1 10; Sample.frac 1 5; Sample.frac 3 10; Sample.frac 2 5] in
  let V := [Sample.frac 1 5; Sample.frac 2 5; Sample.frac 1 10; Sample.frac 3 10] in
  exists th,
    theta (snd (fit Sample.kendalltau (init Sample.clayton) U V)) = Some th
    /\ valid_theta Sample.clayton th
    /\ check_fit (snd (fit Sample.kendalltau (init Sample.clayton) U V))
       = if feqb th zero then Raise NotFittedError else Ret tt.
Proof.
  intros U V.
  apply (fit_success_then_check_fit Sample.kendalltau (init Sample.clayton) U V).
  vm_compute. reflexivity.
Defined.

(** On that input the fitted theta is zero: the fit succeeds and the
    model still counts as not fitted. *)
Example fit_success_zero_theta :
  let U := [Sample.frac 1 10; Sample.frac 1 5; Sample.frac 3 10; Sample.frac 2 5] in
  let V := [Sample.frac 1 5; Sample.frac 2 5; Sample.frac 1 10; Sample.frac 3 10] in
  fst (fit Sample.kendalltau (init Sample.clayton) U V) = Ret tt
  /\ check_fit (snd (fit Sample.kendalltau (init Sample.clayton) U V)) = Raise NotFittedError.
Proof. vm_compute. split; reflexivity. Qed.

Lemma fit_rejects_nan_theta_witness :
  fit Sample.kendalltau (init Sample.clayton) [Sample.frac 1 2] [Sample.frac 1 2]
  = (Raise (ValueError ThetaOutOfLimits),
     mkBivariate Sample.clayton (Some [Sample.frac 1 2]) (Some [Sample.frac 1 2])
       (Some NaN) (Some NaN)).
Proof.
  apply (fit_rejects_nan_theta Sample.kendalltau (init Sample.clayton)
           [Sample.frac 1 2] [Sample.frac 1 2] NaN); reflexivity.
Defined.

(* ------------------------------------------------------------------ *)
(** ** Construction *)

Lemma upper_ascii_idempotent (c : ascii) : upper_ascii (upper_ascii c) = upper_ascii c.
Proof. destruct c as [[] [] [] [] [] [] [] []]; reflexivity. Qed.

Lemma upper_idempotent (s : string) : upper (upper s) = upper s.
Proof.
  induction s as [|c s IH]; simpl; [reflexivity|].
  rewrite upper_ascii_idempotent, IH. reflexivity.
Qed.

Section ConstructFurther.

Variable subclasses : list Subclass.

Lemma new_inversion (x : pyobj) (c : Subclass) :
  new subclasses x = Ret (Some c) ->
  In c subclasses
  /\ (forall t, x = PyEnum t -> copula_type c = t)
  /\ (forall s, x = PyStr s -> CopulaType.name (copula_type c) = upper s).
Proof.
  unfold new.
  assert (Hfind : forall t,
            find (fun subclass => CopulaType.eqb (copula_type subclass) t) subclasses = Some c ->
            In c subclasses /\ copula_type c = t).
  { intros t E. apply find_some in E. destruct E as [Hin He].
    apply CopulaType_eqb_eq in He. auto. }
  destruct x as [|s|t| |]; simpl; try discriminate.
  - destruct (CopulaType.members (upper s)) as [t|] eqn:Em; simpl; [|discriminate].
    intro H. injection H as H. destruct (Hfind t H) as [H2 H3].
    split; [exact H2|]. split.
    + intros t' Hx. discriminate Hx.
    + intros s' Hx. injection Hx as <-. rewrite H3.
      symmetry. apply members_name. exact Em.
  - intro H. injection H as H. destruct (Hfind t H) as [H2 H3].
    split; [exact H2|]. split.
    + intros t' Hx. injection Hx as <-. exact H3.
    + intros s' Hx. discriminate Hx.
Qed.

Lemma construct_inversion (x : pyobj) (m : Bivariate)
    (Hc : construct subclasses x = Ret (Some m)) :
  m = init (klass m)
  /\ In (klass m) subclasses
  /\ check_fit m = Raise NotFittedError
  /\ (forall t, x = PyEnum t -> copula_type (klass m) = t)
  /\ (forall s, x = PyStr s -> CopulaType.name (copula_type (klass m)) = upper s).
Proof.
  unfold construct in Hc.
  destruct (new subclasses x) as [[c|]|e] eqn:En; simpl in Hc; try discriminate.
  injection Hc as <-. destruct (new_inversion x c En) as [H1 [H2 H3]].
  simpl. auto.
Qed.

(** Whatever the constructor builds is an unfitted instance of a scanned
    class: no data, no theta, no tau, [check_fit] raises; and its class
    carries the member that was asked for, by tag or by name. *)
Theorem construct_gives_unfitted (x : pyobj) (m : Bivariate)
    (Hc : construct subclasses x = Ret (Some m)) :
  m = init (klass m)
  /\ In (klass m) subclasses
  /\ check_fit m = Raise NotFittedError
  /\ (forall t, x = PyEnum t -> copula_type (klass m) = t)
  /\ (forall s, x = PyStr s -> CopulaType.name (copula_type (klass m)) = upper s).
Proof.
  unfold construct in Hc.
  destruct (new subclasses x) as [[c|]|e] eqn:En; simpl in Hc; try discriminate.
  injection Hc as <-.
  (* [__init__] ran on the new object: every attribute is unset *)
  split; [reflexivity|].
  destruct (new_inversion x c En) as [Hin [Htag Hname]].
  split; [exact Hin|].
  split; [reflexivity|].
  split; [exact Htag | exact Hname].
Qed.

(** When no scanned class carries the member, the constructor does not
    fail: it returns [None].  The failure comes later and as an
    [AttributeError], in [from_dict], and in [select_copula] for a
    missing Clayton class. *)
Theorem construct_unregistered_is_none
    (kendalltau : list pyfloat -> list pyfloat -> result pyfloat)
    (t : CopulaTypes)
    (Hnone : forall c, In c subclasses -> copula_type c <> t) :
  construct subclasses (PyEnum t) = Ret None
  /\ construct subclasses (PyStr (CopulaType.name t)) = Ret None
  /\ (forall th ta, from_dict subclasses (mkDict (PyStr (CopulaType.name t)) th ta)
                    = Raise AttributeError)
  /\ (forall U V, fitted kendalltau subclasses t U V = Raise AttributeError)
  /\ (t = CLAYTON ->
      forall U V, select_copula kendalltau subclasses U V = Raise AttributeError).
Proof.
  assert (Hf : find (fun subclass => CopulaType.eqb (copula_type subclass) t) subclasses = None).
  { destruct (find _ subclasses) as [c|] eqn:E; [|reflexivity].
    apply find_some in E. destruct E as [Hin He].
    apply CopulaType_eqb_eq in He. exfalso. exact (Hnone c Hin He). }
  assert (H1 : construct subclasses (PyEnum t) = Ret None).
  { unfold construct, new. simpl. rewrite Hf. reflexivity. }
  assert (H2 : construct subclasses (PyStr (CopulaType.name t)) = Ret None).
  { unfold construct, new. rewrite members_upper_name. simpl. rewrite Hf. reflexivity. }
  assert (H3 : forall U V, fitted kendalltau subclasses t U V = Raise AttributeError).
  { intros U V. unfold fitted. rewrite H1. reflexivity. }
  repeat split; auto.
  - intros th ta. unfold from_dict. simpl. rewrite H2. reflexivity.
  - intros -> U V. unfold select_copula. rewrite H3. reflexivity.
Qed.

(** The constructor does not look at the case of the letters of a name,
    and a name gives what its tag gives. *)
Theorem construct_case_insensitive :
  (forall s, construct subclasses (PyStr (upper s)) = construct subclasses (PyStr s))
  /\ (forall s1 s2, upper s1 = upper s2 ->
        construct subclasses (PyStr s1) = construct subclasses (PyStr s2))
  /\ (forall s t, upper s = CopulaType.name t ->
        construct subclasses (PyStr s) = construct subclasses (PyEnum t)).
Proof.
  split; [|split].
  - intro s. unfold construct, new. rewrite upper_idempotent. reflexivity.
  - intros s1 s2 H. unfold construct, new. rewrite H. reflexivity.
  - intros s t H. unfold construct, new.
    assert (Hm : CopulaType.members (upper s) = Some t) by (apply members_name; exact H).
    rewrite Hm. reflexivity.
Qed.

(** Decoding, encoding and decoding again gives the decoded instance
    back; the encoded record carries the family name in upper case, the
    theta and the tau of the decoded record, unchecked. *)
Theorem from_dict_then_to_dict (d : copula_dict) (m : Bivariate)
    (Hd : from_dict subclasses d = Ret m) :
  to_dict m = mkDict (PyStr (CopulaType.name (copula_type (klass m)))) (dict_theta d) (dict_tau d)
  /\ attr_U m = None /\ attr_V m = None
  /\ from_dict subclasses (to_dict m) = Ret m.
Proof.
  unfold from_dict in Hd.
  destruct (construct subclasses (dict_copula_type d)) as [[m0|]|e] eqn:Ec;
    simpl in Hd; try discriminate.
  injection Hd as <-.
  destruct (construct_inversion _ _ Ec) as [Hinit [Hin _]].
  rewrite Hinit. unfold to_dict. simpl. repeat split.
  unfold from_dict, construct, new. simpl. rewrite members_upper_name. simpl.
  (* the scan finds the class of [m0] itself: it was found for this tag before *)
  assert (Hsame : find (fun subclass =>
                          CopulaType.eqb (copula_type subclass) (copula_type (klass m0)))
                       subclasses = Some (klass m0)).
  { unfold construct, new in Ec.
    destruct (dict_copula_type d) as [|s|t| |]; simpl in Ec; try discriminate.
    - destruct (CopulaType.members (upper s)) as [t|]; simpl in Ec; [|discriminate].
      destruct (find (fun subclass => CopulaType.eqb (copula_type subclass) t) subclasses)
        as [c0|] eqn:E0; simpl in Ec; [|discriminate].
      injection Ec as <-. simpl. apply find_some in E0 as E0'. destruct E0' as [_ He].
      apply CopulaType_eqb_eq in He. rewrite He. exact E0.
    - destruct (find (fun subclass => CopulaType.eqb (copula_type subclass) t) subclasses)
        as [c0|] eqn:E0; simpl in Ec; [|discriminate].
      injection Ec as <-. simpl. apply find_some in E0 as E0'. destruct E0' as [_ He].
      apply CopulaType_eqb_eq in He. rewrite He. exact E0. }
  rewrite Hsame. reflexivity.
Qed.

End ConstructFurther.

Lemma construct_gives_unfitted_witness :
  init Sample.gumbel = init (klass (init Sample.gumbel))
  /\ In (klass (init Sample.gumbel)) Sample.subclasses
  /\ check_fit (init Sample.gumbel) = Raise NotFittedError
  /\ (forall t, PyStr "Gumbel" = PyEnum t -> copula_type (klass (init Sample.gumbel)) = t)
  /\ (forall s, PyStr "Gumbel" = PyStr s ->
        CopulaType.name (copula_type (klass (init Sample.gumbel))) = upper s).
Proof.
  apply (construct_gives_unfitted Sample.subclasses (PyStr "Gumbel") (init Sample.gumbel)).
  reflexivity.
Defined.

Lemma construct_unregistered_is_none_witness :
  construct [Sample.frank; Sample.gumbel] (PyEnum CLAYTON) = Ret None
  /\ construct [Sample.frank; Sample.gumbel] (PyStr (CopulaType.name CLAYTON)) = Ret None
  /\ (forall th ta, from_dict [Sample.frank; Sample.gumbel]
                      (mkDict (PyStr (CopulaType.name CLAYTON)) th ta)
                    = Raise AttributeError)
  /\ (forall U V, fitted Sample.kendalltau [Sample.frank; Sample.gumbel] CLAYTON U V
                  = Raise AttributeError)
  /\ (CLAYTON = CLAYTON ->
      forall U V, select_copula Sample.kendalltau [Sample.frank; Sample.gumbel] U V
                  = Raise AttributeError).
Proof.
  apply (construct_unregistered_is_none [Sample.frank; Sample.gumbel] Sample.kendalltau CLAYTON).
  intros c [<-|[<-|[]]]; discriminate.
Defined.

Lemma from_dict_then_to_dict_witness :
  let d := mkDict (PyStr "frank") (Some NaN) None in
  let m := mkBivariate Sample.frank None None (Some NaN) None in
  to_dict m = mkDict (PyStr (CopulaType.name (copula_type (klass m)))) (dict_theta d) (dict_tau d)
  /\ attr_U m = None /\ attr_V m = None
  /\ from_dict Sample.subclasses (to_dict m) = Ret m.
Proof.
  intros d m. apply (from_dict_then_to_dict Sample.subclasses d m). reflexivity.
Defined.

(* ------------------------------------------------------------------ *)
(** ** Sampling *)

Section SampleFurther.

Variable rng : Type.
Variable uniform : nat -> rng -> list pyfloat * rng.

(** A stored tau above [1] or below [-1] is refused before anything is
    drawn: the generator is left as it was. *)
Theorem sample_out_of_range (self : Bivariate) (n_samples : nat) (g : rng) (t : pyfloat)
    (Htau : tau self = Some t)
    (Hout : fgtb t one = true \/ fltb t (fneg one) = true) :
  sample uniform self n_samples g = (Raise (ValueError TauOutOfRange), g).
Proof.
  unfold sample. rewrite Htau.
  destruct Hout as [H|H]; rewrite H; [reflexivity|].
  rewrite orb_true_r. reflexivity.
Qed.

(** With a tau that is not out of range (a tau that is not a number
    counts as such), [sample] draws [v], then [c], and returns the rows
    [(u_i, v_i)] for [u = _sample(v, c)]: the first column is what the
    class computed, the second the first draw.  Theta is not inspected:
    neither [check_fit] nor [check_theta] is called. *)
Theorem sample_rows (self : Bivariate) (n_samples : nat) (g g1 g2 : rng)
    (t : pyfloat) (v c u : list pyfloat)
    (Htau : tau self = Some t)
    (Hin : fgtb t one = false /\ fltb t (fneg one) = false)
    (Hv : uniform n_samples g = (v, g1))
    (Hc : uniform n_samples g1 = (c, g2))
    (Hu : _sample (klass self) (theta self) v c = Ret u)
    (Hlen : List.length u = List.length v) :
  exists rows,
    sample uniform self n_samples g = (Ret rows, g2)
    /\ map fst rows = u
    /\ map snd rows = v
    /\ List.length rows = List.length v.
Proof.
  exists (combine u v). unfold sample. rewrite Htau.
  destruct Hin as [H1 H2]. rewrite H1, H2. simpl.
  rewrite Hv, Hc, Hu. rewrite Hlen, Nat.eqb_refl.
  split; [reflexivity|].
  clear - Hlen. revert v Hlen.
  induction u as [|x u IH]; intros [|y v] Hlen; simpl in *; try discriminate; auto.
  injection Hlen as Hlen. destruct (IH v Hlen) as [H1 [H2 H3]].
  rewrite H1, H2, H3. auto.
Qed.

End SampleFurther.

Lemma sample_out_of_range_witness :
  sample Sample.uniform (mkBivariate Sample.frank None None (Some (Fin 1)) (Some (Fin 2))) 3 tt
  = (Raise (ValueError TauOutOfRange), tt).
Proof.
  apply (sample_out_of_range unit Sample.uniform
           (mkBivariate Sample.frank None None (Some (Fin 1)) (Some (Fin 2))) 3 tt (Fin 2)).
  - reflexivity.
  - left. reflexivity.
Defined.

Lemma sample_rows_witness :
  exists rows,
    sample Sample.uniform (mkBivariate Sample.frank None None None (Some NaN)) 2 tt
      = (Ret rows, tt)
    /\ map fst rows = [Sample.frac 1 2; Sample.frac 1 2]
    /\ map snd rows = [Sample.frac 1 2; Sample.frac 1 2]
    /\ List.length rows = List.length [Sample.frac 1 2; Sample.frac 1 2].
Proof.
  apply (sample_rows unit Sample.uniform
           (mkBivariate Sample.frank None None None (Some NaN)) 2 tt tt tt NaN
           [Sample.frac 1 2; Sample.frac 1 2] [Sample.frac 1 2; Sample.frac 1 2]);
    try reflexivity.
  split; reflexivity.
Defined.

(* ------------------------------------------------------------------ *)
(** ** The empirical tail estimator, further *)

Lemma broadcast2_mismatch {A B C} (f : A -> B -> C) (xs : list A) (ys : list B) :
  List.length xs <> List.length ys ->
  List.length xs <> 1 -> List.length ys <> 1 ->
  Numpy.broadcast2 f xs ys = Raise (ValueError ShapeMismatch).
Proof.
  intros Hd Hx Hy. unfold Numpy.broadcast2.
  destruct (Nat.eqb_spec (List.length xs) (List.length ys)) as [E|_]; [contradiction|].
  destruct xs as [|x [|x' xs]], ys as [|y [|y' ys]]; simpl in *;
    try reflexivity; congruence.
Qed.

Lemma grid_entries_step (u v : list pyfloat) (k : nat) (z E z' E' : list pyfloat) :
  0 < List.length u ->
  step_effect u v k (grid_point k) z E = Ret (z', E') ->
  z' = z ++ grid_entries u v k.
Proof.
  intros HN. unfold step_effect, grid_entries.
  destruct (fraction_value (left_count u v (grid_point k)) (List.length u) HN)
    as [al [El Hl]].
  destruct (fraction_value (right_count u v (grid_point k)) (List.length u) HN)
    as [ar [Er Hr]].
  rewrite El, Er.
  assert (Hlb : fgtb (Fin al) zero = (0 <? left_count u v (grid_point k))).
  { destruct (fgtb (Fin al) zero); destruct (Nat.ltb_spec 0 (left_count u v (grid_point k)));
      try reflexivity.
    - pose proof (proj1 Hl eq_refl). lia.
    - pose proof (proj2 Hl H). discriminate. }
  assert (Hrb : fgtb (Fin ar) zero = (0 <? right_count u v (grid_point k))).
  { destruct (fgtb (Fin ar) zero); destruct (Nat.ltb_spec 0 (right_count u v (grid_point k)));
      try reflexivity.
    - pose proof (proj1 Hr eq_refl). lia.
    - pose proof (proj2 Hr H). discriminate. }
  rewrite Hlb, Hrb.
  destruct (0 <? left_count u v (grid_point k));
    destruct (0 <? right_count u v (grid_point k)); simpl.
  - destruct (nth_error _ k); [|discriminate].
    intro H. injection H as <- _. rewrite <- app_assoc. reflexivity.
  - intro H. injection H as <- _. reflexivity.
  - destruct (nth_error _ k); [|discriminate].
    intro H. injection H as <- _. reflexivity.
  - intro H. injection H as <- _. rewrite app_nil_r. reflexivity.
Qed.

Section LoopFurther.

Variables u v : list pyfloat.
Hypothesis Hlen : List.length u = List.length v.
Hypothesis Hne : u <> [].

Lemma loop_grid (n a : nat) (z E z' E' : list pyfloat) :
  a + n <= COMPUTE_EMPIRICAL_STEPS ->
  Store.for_each (seq a n) (compute_empirical_step u v grid (List.length u) 0 1 0 1) [z; E]
  = Ret (tt, [z'; E']) ->
  z' = z ++ flat_map (grid_entries u v) (seq a n).
Proof.
  revert a z E. induction n as [|n IH]; intros a z E Hb.
  - simpl. unfold Store.ret. intro H. injection H as <- _. rewrite app_nil_r. reflexivity.
  - cbn [seq Store.for_each flat_map]. unfold Store.bind at 1.
    rewrite (step_runs u v Hlen Hne grid a (grid_point a)) by (apply grid_nth; lia).
    destruct (step_effect u v a (grid_point a) z E) as [[z1 E1]|e] eqn:Es; [|discriminate].
    intro Hr. apply IH in Hr; [|lia].
    apply grid_entries_step in Es; [|destruct u; [congruence | simpl; lia]].
    rewrite Hr, Es, <- app_assoc. reflexivity.
Qed.

(** The run of [compute_empirical] on sequences of one non-zero length:
    it returns, the grid list is [merged_grid], the value list is as
    long, its entries are non-negative. *)
Lemma compute_empirical_run :
  exists E,
    compute_empirical u v = Ret (merged_grid u v, E, merged_grid u v, E)
    /\ List.length (merged_grid u v) = List.length E
    /\ Forall (fun x => is_nonneg x = true) E.
Proof.
  destruct (loop_runs u v Hlen Hne COMPUTE_EMPIRICAL_STEPS 0 [] []) as [z [E [Hrun Hinv]]].
  - simpl. lia.
  - unfold loop_invariant. simpl. repeat split; auto.
  - assert (Hz : z = [] ++ flat_map (grid_entries u v) (seq 0 COMPUTE_EMPIRICAL_STEPS)).
    { apply (loop_grid COMPUTE_EMPIRICAL_STEPS 0 [] [] z E); [simpl; lia | exact Hrun]. }
    rewrite app_nil_l in Hz.
    fold (merged_grid u v) in Hz. subst z.
    exists E. destruct Hinv as (Hl & Hnn & _). split; [|auto].
    unfold compute_empirical, compute_empirical_st, Store.bind, Store.new_list, Store.ret.
    cbn [List.length app]. fold grid. rewrite Hrun. reflexivity.
Qed.

End LoopFurther.

Lemma flat_map_length_le {A B} (f : A -> list B) (l : list A) (b : nat) :
  (forall x, List.length (f x) <= b) -> List.length (flat_map f l) <= b * List.length l.
Proof.
  intro H. induction l as [|x l IH]; simpl; [lia|].
  rewrite length_app. specialize (H x). lia.
Qed.

(* ------------------------------------------------------------------ *)
(** ** The estimator over any grid *)

(** One iteration at grid value [b], when the read of [z_right[k]] is
    within the list. *)
Lemma step_effect_entries (u v : list pyfloat) (k : nat) (b : pyfloat) (z E : list pyfloat) :
  0 < List.length u ->
  (0 < right_count u v b -> k < List.length (z ++ entries_at u v b)) ->
  exists E',
    step_effect u v k b z E = Ret (z ++ entries_at u v b, E')
    /\ List.length E' = List.length E + List.length (entries_at u v b).
Proof.
  intros HN Hk. unfold step_effect, entries_at in *.
  destruct (fraction_value (left_count u v b) (List.length u) HN) as [al [El Hl]].
  destruct (fraction_value (right_count u v b) (List.length u) HN) as [ar [Er Hr]].
  rewrite El, Er.
  assert (Hlb : fgtb (Fin al) zero = (0 <? left_count u v b)).
  { destruct (fgtb (Fin al) zero); destruct (Nat.ltb_spec 0 (left_count u v b));
      try reflexivity.
    - pose proof (proj1 Hl eq_refl). lia.
    - pose proof (proj2 Hl H). discriminate. }
  assert (Hrb : fgtb (Fin ar) zero = (0 <? right_count u v b)).
  { destruct (fgtb (Fin ar) zero); destruct (Nat.ltb_spec 0 (right_count u v b));
      try reflexivity.
    - pose proof (proj1 Hr eq_refl). lia.
    - pose proof (proj2 Hr H). discriminate. }
  rewrite Hlb, Hrb.
  destruct (Nat.ltb_spec 0 (left_count u v b)) as [Hlc|Hlc];
    destruct (Nat.ltb_spec 0 (right_count u v b)) as [Hrc|Hrc]; cbn [app] in *.
  - specialize (Hk Hrc). rewrite length_app in Hk. simpl in Hk.
    destruct (nth_error ((z ++ [b]) ++ [b]) k) as [zk|] eqn:Ez;
      [|apply nth_error_None in Ez; rewrite !length_app in Ez; simpl in Ez; lia].
    eexists. split; [rewrite <- app_assoc; reflexivity|].
    rewrite !length_app. simpl. lia.
  - eexists. split; [reflexivity|]. rewrite !length_app. simpl. lia.
  - specialize (Hk Hrc). rewrite length_app in Hk. simpl in Hk.
    destruct (nth_error (z ++ [b]) k) as [zk|] eqn:Ez;
      [|apply nth_error_None in Ez; rewrite length_app in Ez; simpl in Ez; lia].
    eexists. split; [reflexivity|]. rewrite !length_app. simpl. lia.
  - eexists. split; [rewrite app_nil_r; reflexivity|]. simpl. lia.
Qed.

Section AnyGrid.

Variables base u v : list pyfloat.
Hypothesis Hmono : forall j k bj bk,
    j <= k -> nth_error base j = Some bj -> nth_error base k = Some bk ->
    fleb bj bk = true.
Hypothesis Hlen : List.length u = List.length v.
Hypothesis Hne : u <> [].

(** The loop from the grid value after [done] on: [z] has one entry per
    passed grid value as long as every right count was positive. *)
Lemma loop_on_grid (rest done z E : list pyfloat) :
  base = done ++ rest ->
  List.length z = List.length E ->
  ((forall b, In b done -> 0 < right_count u v b) -> List.length done <= List.length z) ->
  exists E',
    Store.for_each (seq (List.length done) (List.length rest))
      (compute_empirical_step u v base (List.length u) 0 1 0 1) [z; E]
    = Ret (tt, [z ++ flat_map (entries_at u v) rest; E'])
    /\ List.length (z ++ flat_map (entries_at u v) rest) = List.length E'.
Proof.
  revert done z E. induction rest as [|b rest IH]; intros done z E Hb Hl Hcnt.
  - exists E. simpl. rewrite app_nil_r. split; [reflexivity | exact Hl].
  - assert (HN : 0 < List.length u) by (destruct u; [congruence | simpl; lia]).
    assert (Hnth : nth_error base (List.length done) = Some b).
    { rewrite Hb, nth_error_app2 by lia. rewrite Nat.sub_diag. reflexivity. }
    destruct (step_effect_entries u v (List.length done) b z E HN) as [E1 [Hs Hl1]].
    { (* a positive right count here means one at every earlier grid value *)
      intro Hrc. rewrite length_app.
      assert (Hall : forall b', In b' done -> 0 < right_count u v b').
      { intros b' Hin. apply (right_count_mono u v b' b); [|exact Hrc].
        apply In_nth_error in Hin. destruct Hin as [j Hj].
        assert (Hjlt : j < List.length done) by (apply nth_error_Some; congruence).
        apply (Hmono j (List.length done)); [lia | | exact Hnth].
        rewrite Hb, nth_error_app1 by exact Hjlt. exact Hj. }
      specialize (Hcnt Hall). unfold entries_at. rewrite length_app.
      destruct (Nat.ltb_spec 0 (right_count u v b)); [simpl; lia | lia]. }
    destruct (IH (done ++ [b]) (z ++ entries_at u v b) E1) as [E' [Hr Hl']].
    + rewrite <- app_assoc. exact Hb.
    + rewrite length_app. lia.
    + intro Hall. rewrite !length_app. simpl.
      assert (Hrc : 0 < right_count u v b).
      { apply Hall. apply in_or_app. right. left. reflexivity. }
      assert (Hd : List.length done <= List.length z).
      { apply Hcnt. intros b' Hin. apply Hall. apply in_or_app. left. exact Hin. }
      unfold entries_at. rewrite length_app.
      destruct (Nat.ltb_spec 0 (right_count u v b)); [simpl; lia | lia].
    + exists E'. rewrite length_app in Hr. simpl in Hr.
      replace (List.length done + 1) with (S (List.length done)) in Hr by lia.
      cbn [List.length seq Store.for_each flat_map]. unfold Store.bind at 1.
      rewrite (step_runs u v Hlen Hne base (List.length done) b z E Hnth), Hs.
      rewrite app_assoc. split; [exact Hr | exact Hl'].
Qed.

End AnyGrid.

(** Whatever grid [np.linspace] hands back, as long as it has
    [COMPUTE_EMPIRICAL_STEPS] values in non-decreasing order: on two
    sequences of one non-zero length [compute_empirical] returns; the
    list it returns as [z_left] and as [z_right] holds, in grid order,
    each grid value once if its left count is positive and once more if
    its right count is positive; it has at most twice as many entries as
    the grid, and the list returned as [L] and as [R] has as many. *)
Theorem compute_empirical_grid (base u v : list pyfloat)
    (Hbase : List.length base = COMPUTE_EMPIRICAL_STEPS)
    (Hmono : forall j k bj bk,
        j <= k -> nth_error base j = Some bj -> nth_error base k = Some bk ->
        fleb bj bk = true)
    (Hlen : List.length u = List.length v) (Hne : u <> []) :
  compute_empirical u v
  = compute_empirical_on (Numpy.linspace zero one COMPUTE_EMPIRICAL_STEPS) u v
  /\ exists E,
       compute_empirical_on base u v = Ret (merged_on base u v, E, merged_on base u v, E)
       /\ List.length E = List.length (merged_on base u v)
       /\ List.length (merged_on base u v) <= 2 * COMPUTE_EMPIRICAL_STEPS.
Proof.
  split; [reflexivity|].
  destruct (loop_on_grid base u v Hmono Hlen Hne base [] [] []) as [E [Hrun Hl]].
  - reflexivity.
  - reflexivity.
  - intros _. simpl. lia.
  - simpl in Hrun, Hl. rewrite Hbase in Hrun. fold (merged_on base u v) in Hrun, Hl.
    exists E. split; [|split].
    + unfold compute_empirical_on, compute_empirical_on_st,
        Store.bind, Store.new_list, Store.ret.
      cbn [List.length app]. rewrite Hrun. reflexivity.
    + symmetry. exact Hl.
    + unfold merged_on.
      pose proof (flat_map_length_le (entries_at u v) base 2) as H.
      rewrite Hbase in H. apply H.
      intro b. unfold entries_at. rewrite length_app.
      destruct (0 <? left_count u v b); destruct (0 <? right_count u v b); simpl; lia.
Qed.

Lemma compute_empirical_grid_witness :
  let u := [Sample.frac 1 10; Sample.frac 9 10] in
  let v := [Sample.frac 9 10; Sample.frac 1 10] in
  compute_empirical u v
  = compute_empirical_on (Numpy.linspace zero one COMPUTE_EMPIRICAL_STEPS) u v
  /\ exists E,
       compute_empirical_on grid u v = Ret (merged_on grid u v, E, merged_on grid u v, E)
       /\ List.length E = List.length (merged_on grid u v)
       /\ List.length (merged_on grid u v) <= 2 * COMPUTE_EMPIRICAL_STEPS.
Proof.
  intros u v. apply (compute_empirical_grid grid u v).
  - reflexivity.
  - intros j k bj bk Hjk Hj Hk.
    assert (Hklt : k < COMPUTE_EMPIRICAL_STEPS).
    { change COMPUTE_EMPIRICAL_STEPS with (List.length grid).
      apply nth_error_Some. congruence. }
    rewrite grid_nth in Hj by lia. rewrite grid_nth in Hk by exact Hklt.
    injection Hj as <-. injection Hk as <-. apply grid_point_le. exact Hjk.
  - reflexivity.
  - discriminate.
Defined.

(** Sequences of different lengths, neither of length one, are refused
    by numpy at the first comparison of the loop. *)
Theorem compute_empirical_shape_mismatch (u v : list pyfloat)
    (Hd : List.length u <> List.length v)
    (Hu : List.length u <> 1) (Hv : List.length v <> 1) :
  compute_empirical u v = Raise (ValueError ShapeMismatch).
Proof.
  unfold compute_empirical, compute_empirical_st, Store.bind, Store.new_list.
  cbn [List.length app]. fold grid.
  change (seq 0 COMPUTE_EMPIRICAL_STEPS) with (0 :: seq 1 49).
  cbn [Store.for_each]. unfold Store.bind at 1.
  unfold compute_empirical_step at 1. unfold Store.bind at 1.
  rewrite (grid_nth 0) by (unfold COMPUTE_EMPIRICAL_STEPS; lia).
  unfold Store.lift at 1. unfold Store.bind at 1. unfold Store.lift at 1.
  rewrite broadcast2_mismatch by (rewrite ?length_map; assumption).
  reflexivity.
Qed.

Lemma compute_empirical_shape_mismatch_witness :
  compute_empirical [Sample.frac 1 10; Sample.frac 9 10] [] = Raise (ValueError ShapeMismatch).
Proof.
  apply (compute_empirical_shape_mismatch [Sample.frac 1 10; Sample.frac 9 10] []);
    simpl; lia.
Defined.

(* ------------------------------------------------------------------ *)
(** ** Selection, further *)

(** [get_dependences], without the store: the left curves of all
    copulas, then their right curves, returned twice. *)
Lemma get_dependences_value (copulas : list Bivariate) (z_left z_right : list pyfloat) :
  get_dependences copulas z_left z_right
  = match mapM (fun copula =>
                  (c <- cumulative_density (klass copula) (theta copula) z_left z_left ;;
                   Numpy.broadcast2 fdiv c (Numpy.power2 z_left))%res) copulas with
    | Raise e => Raise e
    | Ret ls =>
        match mapM (fun copula =>
                      (c <- cumulative_density (klass copula) (theta copula) z_right z_right ;;
                       compute_tail c z_right)%res) copulas with
        | Raise e => Raise e
        | Ret rs => Ret (ls ++ rs, ls ++ rs)
        end
    end.
Proof.
  unfold get_dependences, get_dependences_st.
  unfold Store.bind at 1. unfold Store.new_list. cbn [List.length app].
  unfold Store.bind at 1. rewrite append_loop_runs.
  match goal with
  | |- context [mapM ?f copulas] => destruct (mapM f copulas) as [ls|e]
  end; [|reflexivity].
  unfold Store.bind at 1. rewrite append_loop_runs.
  match goal with
  | |- context [mapM ?f copulas] => destruct (mapM f copulas) as [rs|e]
  end; reflexivity.
Qed.

Lemma broadcast2_head {A B C} (f : A -> B -> C) (x : A) (xs : list A) (y : B) (ys : list B)
    (r : list C) :
  Numpy.broadcast2 f (x :: xs) (y :: ys) = Ret r -> exists r', r = f x y :: r'.
Proof.
  unfold Numpy.broadcast2.
  destruct (List.length (x :: xs) =? List.length (y :: ys)).
  - simpl. intro H. injection H as <-. eauto.
  - destruct xs as [|x' xs].
    + simpl. intro H. injection H as <-. eauto.
    + destruct ys as [|y' ys]; [|discriminate].
      simpl. intro H. injection H as <-. eauto.
Qed.

Lemma fold_fadd_nan (xs : list pyfloat) : fold_left fadd xs NaN = NaN.
Proof. induction xs as [|x xs IH]; simpl; [reflexivity | exact IH]. Qed.

Lemma sum_nan_head (x : pyfloat) (xs : list pyfloat) :
  Numpy.sum (fsquare (fsub x NaN) :: xs) = NaN.
Proof.
  unfold Numpy.sum. simpl.
  assert (H : fsquare (fsub x NaN) = NaN) by (destruct x; reflexivity).
  rewrite H. simpl. apply fold_fadd_nan.
Qed.

(** A curve that starts with [nan] costs [nan]. *)
Lemma costs_nan_head (e0 : pyfloat) (E l0 : list pyfloat) (d : list (list pyfloat))
    (cs : list pyfloat) :
  costs (e0 :: E) ((NaN :: l0) :: d) = Ret cs -> exists cs', cs = NaN :: cs'.
Proof.
  unfold costs. cbn [mapM].
  destruct (Numpy.broadcast2 fsub (e0 :: E) (NaN :: l0)) as [diff|e] eqn:Eb; [|discriminate].
  apply broadcast2_head in Eb. destruct Eb as [diff' ->].
  cbn [rbind]. unfold Numpy.power2. cbn [map]. rewrite sum_nan_head.
  match goal with
  | |- context [mapM ?f d] => destruct (mapM f d) as [ys|e]
  end; [|discriminate].
  intro H. injection H as <-. eauto.
Qed.

Lemma argmax_nan_head (a : list pyfloat) : Numpy.argmax (NaN :: a) = Ret 0.
Proof. unfold Numpy.argmax. destruct a; reflexivity. Qed.

Lemma origin_quotient_nan (x : pyfloat) :
  feqb x zero = true \/ x = NaN -> fdiv x (fsquare zero) = NaN.
Proof.
  intros [H| ->]; [|reflexivity].
  destruct x as [q| | |]; simpl in H; try discriminate.
  apply Qeq_bool_iff in H.
  change (fsquare zero) with (Fin 0). unfold fdiv, Qsign.
  change (0 ?= 0)%Q with Eq. cbv iota.
  destruct (Qcompare_spec 0 q) as [_|Hl|Hg]; [reflexivity | |].
  - rewrite H in Hl. exfalso. exact (Qlt_irrefl _ Hl).
  - rewrite H in Hg. exfalso. exact (Qlt_irrefl _ Hg).
Qed.

Lemma merged_grid_head (u v : list pyfloat) :
  0 < left_count u v zero \/ 0 < right_count u v zero ->
  exists z', merged_grid u v = zero :: z'.
Proof.
  intro H. unfold merged_grid.
  change (seq 0 COMPUTE_EMPIRICAL_STEPS) with (0 :: seq 1 49).
  cbn [flat_map]. unfold grid_entries. rewrite grid_point_0.
  destruct (Nat.ltb_spec 0 (left_count u v zero)) as [Hl|Hl].
  - simpl. eauto.
  - destruct (Nat.ltb_spec 0 (right_count u v zero)) as [Hr|Hr].
    + simpl. eauto.
    + lia.
Qed.

(** The general branch on a first candidate whose distribution function
    is zero (or undefined) at the origin: its left curve starts with
    [0/0], its cost is [nan], and [argmax] answers [0]. *)
Lemma select_among_first_wins (c0 : Bivariate) (rest : list Bivariate)
    (t0 : option pyfloat) (trest : list (option pyfloat)) (U V : list pyfloat) :
  List.length U = List.length V -> U <> [] ->
  0 < left_count U V zero \/ 0 < right_count U V zero ->
  (forall zs cs, cumulative_density (klass c0) (theta c0) (zero :: zs) (zero :: zs) = Ret cs ->
                 exists x cs', cs = x :: cs' /\ (feqb x zero = true \/ x = NaN)) ->
  select_among (c0 :: rest) (t0 :: trest) U V = Ret (CLAYTON, t0)
  \/ exists e, select_among (c0 :: rest) (t0 :: trest) U V = Raise e.
Proof.
  intros Hlen Hne Hpos Hcdf.
  destruct (compute_empirical_run U V Hlen Hne) as [E [Hrun [HlenE _]]].
  destruct (merged_grid_head U V Hpos) as [z' Hz].
  unfold select_among. rewrite Hrun. cbn [rbind]. rewrite Hz in *.
  destruct E as [|e0 E]; [simpl in HlenE; discriminate|].
  rewrite get_dependences_value. cbn [mapM].
  destruct (cumulative_density (klass c0) (theta c0) (zero :: z') (zero :: z'))
    as [cs|e] eqn:Ec; [|right; eexists; reflexivity].
  destruct (Hcdf z' cs Ec) as [x [cs' [-> Hx]]]. cbn [rbind].
  destruct (Numpy.broadcast2 fdiv (x :: cs') (Numpy.power2 (zero :: z')))
    as [l0|e] eqn:El; [|right; eexists; reflexivity].
  unfold Numpy.power2 in El. cbn [map] in El.
  apply broadcast2_head in El. destruct El as [l0' ->].
  rewrite (origin_quotient_nan x Hx).
  match goal with
  | |- context [mapM ?f rest] => destruct (mapM f rest) as [ls|e]
  end; [|right; eexists; reflexivity].
  match goal with
  | |- context [match ?m with Ret rs => Ret (_ ++ rs, _ ++ rs) | Raise e => Raise e end] =>
      destruct m as [rs|e]
  end; [|right; eexists; reflexivity].
  cbn [rbind app].
  destruct (costs (e0 :: E) ((NaN :: l0') :: ls ++ rs)) as [cost|e] eqn:Ecost;
    [|right; eexists; reflexivity].
  apply costs_nan_head in Ecost. destruct Ecost as [cost' ->]. cbn [rbind].
  unfold Numpy.broadcast2. rewrite Nat.eqb_refl. cbn [rbind combine map fst snd].
  change (fadd NaN NaN) with NaN. rewrite argmax_nan_head.
  left. reflexivity.
Qed.

Lemma of_value_value (i : nat) (fam : CopulaTypes) :
  CopulaType.of_value i = Ret fam -> CopulaType.value fam = i.
Proof.
  destruct i as [|[|[|i]]]; simpl; intro H; try discriminate;
    injection H as <-; reflexivity.
Qed.

(** Whatever the general branch returns, the theta is the entry of the
    theta list at the position that is the value of the returned tag. *)
Lemma select_among_inversion (cands : list Bivariate) (thetas : list (option pyfloat))
    (U V : list pyfloat) (fam : CopulaTypes) (th : option pyfloat) :
  select_among cands thetas U V = Ret (fam, th) ->
  nth_error thetas (CopulaType.value fam) = Some th.
Proof.
  unfold select_among.
  destruct (compute_empirical U V) as [[[[zl L] zr] R]|e]; [|discriminate]. cbn [rbind].
  destruct (get_dependences cands zl zr) as [[ld rd]|e]; [|discriminate]. cbn [rbind].
  destruct (costs L ld) as [cl|e]; [|discriminate]. cbn [rbind].
  destruct (costs R rd) as [cr|e]; [|discriminate]. cbn [rbind].
  destruct (Numpy.broadcast2 fadd cl cr) as [clr|e]; [|discriminate]. cbn [rbind].
  destruct (Numpy.argmax clr) as [i|e]; [|discriminate]. cbn [rbind].
  destruct (nth_error thetas i) as [th'|] eqn:En; [|discriminate]. cbn [rbind].
  destruct (CopulaType.of_value i) as [fam'|e] eqn:Ev; [|discriminate]. cbn [rbind].
  intro H. injection H as <- <-. apply of_value_value in Ev. rewrite Ev. exact En.
Qed.

Section SelectFurther.

Variable kendalltau : list pyfloat -> list pyfloat -> result pyfloat.
Variable subclasses : list Subclass.

Lemma fitted_inversion (t : CopulaTypes) (U V : list pyfloat) (x : Bivariate) :
  fitted kendalltau subclasses t U V = Ret x ->
  copula_type (klass x) = t
  /\ In (klass x) subclasses
  /\ exists th, theta x = Some th /\ valid_theta (klass x) th.
Proof.
  unfold fitted.
  destruct (construct subclasses (PyEnum t)) as [[m|]|e] eqn:Ec; simpl; try discriminate.
  destruct (fit kendalltau m U V) as [[[]|e] x'] eqn:Ef; [|discriminate].
  intro H. injection H as <-.
  destruct (construct_inversion subclasses _ _ Ec) as [_ [Hin [_ [Ht _]]]].
  assert (Hok : fst (fit kendalltau m U V) = Ret tt) by (rewrite Ef; reflexivity).
  destruct (fit_success_inversion kendalltau m U V Hok) as [t' [th [_ [_ [Hs Hv]]]]].
  rewrite Ef in Hs. simpl in Hs. subst x'. simpl.
  split; [exact (Ht t eq_refl)|]. split; [exact Hin|]. exists th. auto.
Qed.

Lemma try_fitted_inversion (t : CopulaTypes) (U V : list pyfloat) (l : list Bivariate) :
  try_fitted kendalltau subclasses t U V = Ret l ->
  l = [] \/ exists x, l = [x] /\ fitted kendalltau subclasses t U V = Ret x.
Proof.
  unfold try_fitted.
  destruct (fitted kendalltau subclasses t U V) as [x|e].
  - intro H. injection H as <-. right. exists x. auto.
  - destruct (is_value_error e); [|discriminate].
    intro H. injection H as <-. left. reflexivity.
Qed.

(** In the general branch, on data with an observation in the closed
    positive quadrant (or in the closed negative one) and with a Clayton
    class whose distribution function is zero or undefined at the
    origin, [select_copula] can only return the Clayton model: the
    scores of the other candidates are never looked at. *)
Theorem select_copula_general_branch_is_clayton
    (U V : list pyfloat) (clayton : Bivariate) (t : pyfloat)
    (Hlen : List.length U = List.length V) (Hne : U <> [])
    (Hpos : 0 < left_count U V zero \/ 0 < right_count U V zero)
    (Hfit : fitted kendalltau subclasses CLAYTON U V = Ret clayton)
    (Htau : tau clayton = Some t)
    (Hgt : fleb t zero = false)
    (Hcdf : forall zs cs,
        cumulative_density (klass clayton) (theta clayton) (zero :: zs) (zero :: zs) = Ret cs ->
        exists x cs', cs = x :: cs' /\ (feqb x zero = true \/ x = NaN)) :
  select_copula kendalltau subclasses U V = Ret (CLAYTON, theta clayton)
  \/ exists e, select_copula kendalltau subclasses U V = Raise e.
Proof.
  unfold select_copula. rewrite Hfit. cbn [rbind]. rewrite Htau, Hgt.
  destruct (try_fitted kendalltau subclasses FRANK U V) as [lf|e];
    [|right; eexists; reflexivity]. cbn [rbind].
  destruct (try_fitted kendalltau subclasses GUMBEL U V) as [lg|e];
    [|right; eexists; reflexivity]. cbn [rbind app].
  apply select_among_first_wins; assumption.
Qed.

(** The returned tag is a position, not the class of the selected
    candidate.  When the Frank fit is dropped and the Gumbel fit kept,
    the candidates are Clayton and Gumbel: the answer is either Clayton
    with its theta, or the tag [FRANK] with the theta of the Gumbel
    model; [GUMBEL] is never returned. *)
Theorem select_copula_tag_is_positional
    (U V : list pyfloat) (clayton gumbel : Bivariate) (t : pyfloat) (w : value_error)
    (fam : CopulaTypes) (th : option pyfloat)
    (Hfit : fitted kendalltau subclasses CLAYTON U V = Ret clayton)
    (Htau : tau clayton = Some t)
    (Hgt : fleb t zero = false)
    (Hfrank : fitted kendalltau subclasses FRANK U V = Raise (ValueError w))
    (Hgumbel : fitted kendalltau subclasses GUMBEL U V = Ret gumbel)
    (Hret : select_copula kendalltau subclasses U V = Ret (fam, th)) :
  (fam = CLAYTON /\ th = theta clayton) \/ (fam = FRANK /\ th = theta gumbel).
Proof.
  unfold select_copula, try_fitted in Hret.
  rewrite Hfit in Hret. cbn [rbind] in Hret. rewrite Htau, Hgt, Hfrank, Hgumbel in Hret.
  cbn [is_value_error rbind app map] in Hret.
  apply select_among_inversion in Hret.
  destruct fam; simpl in Hret.
  - left. split; [reflexivity | congruence].
  - right. split; [reflexivity | congruence].
  - discriminate.
Qed.

(** Whenever [select_copula] returns, the Clayton fit had succeeded and
    the returned theta is the stored theta of one of the models that
    fitted, valid for the class of that model. *)
Theorem select_copula_returns_fitted_theta
    (U V : list pyfloat) (fam : CopulaTypes) (th : option pyfloat)
    (Hret : select_copula kendalltau subclasses U V = Ret (fam, th)) :
  (exists clayton, fitted kendalltau subclasses CLAYTON U V = Ret clayton)
  /\ exists t x th0,
       fitted kendalltau subclasses t U V = Ret x
       /\ th = Some th0
       /\ theta x = Some th0
       /\ valid_theta (klass x) th0
       /\ copula_type (klass x) = t.
Proof.
  unfold select_copula in Hret.
  destruct (fitted kendalltau subclasses CLAYTON U V) as [clayton|e] eqn:Ec; [|discriminate].
  split; [exists clayton; reflexivity|]. cbn [rbind] in Hret.
  assert (Hcand : forall t x, fitted kendalltau subclasses t U V = Ret x -> th = theta x ->
            exists t x th0,
              fitted kendalltau subclasses t U V = Ret x /\ th = Some th0
              /\ theta x = Some th0 /\ valid_theta (klass x) th0 /\ copula_type (klass x) = t).
  { intros t x Hx ->. destruct (fitted_inversion t U V x Hx) as [Ht [_ [th0 [Hth Hv]]]].
    exists t, x, th0. auto. }
  destruct (tau clayton) as [t|]; [|discriminate].
  destruct (fleb t zero).
  - destruct (fitted kendalltau subclasses FRANK U V) as [frank|e] eqn:Ef; [|discriminate].
    cbn [rbind] in Hret. injection Hret as <- <-. exact (Hcand FRANK frank Ef eq_refl).
  - destruct (try_fitted kendalltau subclasses FRANK U V) as [lf|e] eqn:Ef; [|discriminate].
    cbn [rbind] in Hret.
    destruct (try_fitted kendalltau subclasses GUMBEL U V) as [lg|e] eqn:Eg; [|discriminate].
    cbn [rbind] in Hret.
    apply select_among_inversion in Hret.
    apply try_fitted_inversion in Ef. apply try_fitted_inversion in Eg.
    destruct Ef as [->|[frank [-> Ef]]]; destruct Eg as [->|[gumbel [-> Eg]]];
      cbn [app map] in Hret;
      destruct fam; simpl in Hret; try discriminate; injection Hret as <-;
      eauto.
Qed.

End SelectFurther.

Lemma select_copula_general_branch_is_clayton_witness :
  let U := [Sample.frac 1 5; Sample.frac 1 2; Sample.frac 4 5] in
  let V := [Sample.frac 1 2; Sample.frac 1 5; Sample.frac 4 5] in
  let clayton := snd (fit Sample.kendalltau (init Sample.clayton) U V) in
  select_copula Sample.kendalltau Sample.subclasses U V = Ret (CLAYTON, theta clayton)
  \/ exists e, select_copula Sample.kendalltau Sample.subclasses U V = Raise e.
Proof.
  intros U V clayton.
  apply (select_copula_general_branch_is_clayton Sample.kendalltau Sample.subclasses
           U V clayton (Sample.frac 1 3)).
  - reflexivity.
  - discriminate.
  - right. vm_compute. lia.
  - vm_compute. reflexivity.
  - vm_compute. reflexivity.
  - vm_compute. reflexivity.
  - intros zs cs H. simpl in H. apply broadcast2_head in H.
    destruct H as [cs' ->]. exists zero, cs'. split; [reflexivity | left; reflexivity].
Defined.

Lemma select_copula_tag_is_positional_witness :
  let U := [Sample.frac 1 5; Sample.frac 1 2; Sample.frac 4 5] in
  let V := [Sample.frac 1 2; Sample.frac 1 5; Sample.frac 4 5] in
  (CLAYTON = CLAYTON
   /\ Some (Fin 1) = theta (snd (fit Sample.kendalltau (init Sample.clayton) U V)))
  \/ (CLAYTON = FRANK
      /\ Some (Fin 1) = theta (snd (fit Sample.kendalltau (init Sample.gumbel) U V))).
Proof.
  intros U V.
  apply (select_copula_tag_is_positional Sample.kendalltau Sample2.subclasses U V
           (snd (fit Sample.kendalltau (init Sample.clayton) U V))
           (snd (fit Sample.kendalltau (init Sample.gumbel) U V))
           (Sample.frac 1 3) ThetaOutOfLimits CLAYTON (Some (Fin 1)));
    vm_compute; reflexivity.
Defined.

Lemma select_copula_returns_fitted_theta_witness :
  let U := [Sample.frac 1 5; Sample.frac 1 2; Sample.frac 4 5] in
  let V := [Sample.frac 1 2; Sample.frac 1 5; Sample.frac 4 5] in
  (exists clayton, fitted Sample.kendalltau Sample.subclasses CLAYTON U V = Ret clayton)
  /\ exists t x th0,
       fitted Sample.kendalltau Sample.subclasses t U V = Ret x
       /\ Some (Fin 1) = Some th0
       /\ theta x = Some th0
       /\ valid_theta (klass x) th0
       /\ copula_type (klass x) = t.
Proof.
  intros U V.
  apply (select_copula_returns_fitted_theta Sample.kendalltau Sample.subclasses U V
           CLAYTON (Some (Fin 1))).
  vm_compute. reflexivity.
Defined.

Lemma mapM_nth {A B} (f : A -> result B) (xs : list A) (ys : list B) (i : nat) (x : A) :
  mapM f xs = Ret ys -> nth_error xs i = Some x ->
  exists y, f x = Ret y /\ nth_error ys i = Some y.
Proof.
  revert ys i. induction xs as [|x0 xs IH]; intros ys i H Hn.
  - destruct i; discriminate.
  - simpl in H. destruct (f x0) as [y0|e] eqn:E0; [|discriminate].
    destruct (mapM f xs) as [ys'|e]; [|discriminate].
    injection H as <-. destruct i as [|i]; simpl in Hn.
    + injection Hn as <-. exists y0. auto.
    + destruct (IH ys' i eq_refl Hn) as [y [Hy Hi]]. exists y. auto.
Qed.

(** [get_dependences] returns one list under both names.  For [n]
    copulas it has [2 n] entries: the left curve of copula [i] at
    position [i], its right curve at position [n + i]. *)
Theorem get_dependences_returns_one_list
    (copulas : list Bivariate) (z_left z_right : list pyfloat)
    (l r : list (list pyfloat))
    (Hret : get_dependences copulas z_left z_right = Ret (l, r)) :
  l = r
  /\ List.length l = 2 * List.length copulas
  /\ forall i copula, nth_error copulas i = Some copula ->
       exists left_curve right_curve,
         (c <- cumulative_density (klass copula) (theta copula) z_left z_left ;;
          Numpy.broadcast2 fdiv c (Numpy.power2 z_left))%res = Ret left_curve
         /\ nth_error l i = Some left_curve
         /\ (c <- cumulative_density (klass copula) (theta copula) z_right z_right ;;
             compute_tail c z_right)%res = Ret right_curve
         /\ nth_error l (List.length copulas + i) = Some right_curve.
Proof.
  rewrite get_dependences_value in Hret.
  match type of Hret with
  | context [mapM ?f copulas] => destruct (mapM f copulas) as [ls|e] eqn:El
  end; [|discriminate].
  match type of Hret with
  | context [mapM ?f copulas] => destruct (mapM f copulas) as [rs|e] eqn:Er
  end; [|discriminate].
  injection Hret as <- <-.
  pose proof (mapM_length _ _ _ El) as Hll. pose proof (mapM_length _ _ _ Er) as Hlr.
  split; [reflexivity|]. split; [rewrite length_app; lia|].
  intros i copula Hi.
  destruct (mapM_nth _ _ _ i copula El Hi) as [lc [Hlc Hli]].
  destruct (mapM_nth _ _ _ i copula Er Hi) as [rc [Hrc Hri]].
  exists lc, rc. repeat split; try assumption.
  - rewrite nth_error_app1; [exact Hli|].
    rewrite Hll. apply nth_error_Some. congruence.
  - rewrite nth_error_app2 by lia.
    replace (List.length copulas + i - List.length ls) with i by lia. exact Hri.
Qed.

Lemma get_dependences_returns_one_list_witness :
  let frank := mkBivariate Sample.frank None None (Some (Fin 3)) (Some (Sample.frac 1 3)) in
  let l := [[Fin 1]; [Fin 1]] in
  l = l
  /\ List.length l = 2 * List.length [frank]
  /\ forall i copula, nth_error [frank] i = Some copula ->
       exists left_curve right_curve,
         (c <- cumulative_density (klass copula) (theta copula)
                 [Sample.frac 1 2] [Sample.frac 1 2] ;;
          Numpy.broadcast2 fdiv c (Numpy.power2 [Sample.frac 1 2]))%res = Ret left_curve
         /\ nth_error l i = Some left_curve
         /\ (c <- cumulative_density (klass copula) (theta copula)
                    [Sample.frac 1 2] [Sample.frac 1 2] ;;
             compute_tail c [Sample.frac 1 2])%res = Ret right_curve
         /\ nth_error l (List.length [frank] + i) = Some right_curve.
Proof.
  intros frank l.
  apply (get_dependences_returns_one_list [frank] [Sample.frac 1 2] [Sample.frac 1 2] l l).
  vm_compute. reflexivity.
Defined.

(* ------------------------------------------------------------------ *)
(** ** The subclass scan *)

Lemma pyclass_induction (P : pyclass -> Prop) :
  (forall body direct, Forall P direct -> P (PyClass body direct)) ->
  forall c, P c.
Proof.
  intro H. fix IH 1. intros [body direct]. apply H.
  induction direct as [|s direct IHd]; constructor; [apply IH | exact IHd].
Qed.

Lemma in_scan_iff (direct : list pyclass) (c : pyclass) :
  Forall (fun s => forall c, In c (Scan.descend s) <-> derives_from c (direct_subclasses s))
         direct ->
  (In c (flat_map (fun subclass => subclass :: Scan.descend subclass) direct)
   <-> derives_from c direct).
Proof.
  intro Hall. rewrite Forall_forall in Hall. rewrite in_flat_map. split.
  - intros [s [Hs [<-|Hc]]].
    + apply derives_directly. exact Hs.
    + apply (derives_through c s); [exact Hs | apply (Hall s Hs); exact Hc].
  - intro H. inversion H as [c' d Hin | c' s d Hs Hd]; subst.
    + exists c. split; [exact Hin | left; reflexivity].
    + exists s. split; [exact Hs | right; apply (Hall s Hs); exact Hd].
Qed.

Lemma descend_iff (s c : pyclass) :
  In c (Scan.descend s) <-> derives_from c (direct_subclasses s).
Proof.
  revert c. induction s as [body direct IH] using pyclass_induction.
  intro c. simpl. apply in_scan_iff. exact IH.
Qed.

Lemma descend_length (s : pyclass) : List.length (Scan.descend s) = class_count s.
Proof.
  induction s as [body direct IH] using pyclass_induction. simpl.
  induction direct as [|s direct IHd]; simpl; [reflexivity|].
  inversion IH as [|? ? Hs Hd]; subst.
  rewrite length_app, Hs, (IHd Hd). reflexivity.
Qed.

(** The scan finds exactly the classes that derive from the class it is
    called on, directly or through other classes, and lists each of
    them once per class of the tree. *)
Theorem scan_finds_every_descendant (direct : list pyclass) :
  (forall c, In c (Scan._get_subclasses direct) <-> derives_from c direct)
  /\ List.length (Scan._get_subclasses direct)
     = fold_right (fun s n => S (class_count s) + n) 0 direct.
Proof.
  split.
  - intro c. unfold Scan._get_subclasses. apply in_scan_iff.
    apply Forall_forall. intros s _ c'. apply descend_iff.
  - unfold Scan._get_subclasses.
    induction direct as [|s direct IH]; simpl; [reflexivity|].
    rewrite length_app, descend_length, IH. reflexivity.
Qed.

(** The cache of [subclasses]: a first call on an empty cache returns
    the scan; once a call has returned a non-empty list every later call
    returns that list, whatever classes exist by then; an empty result
    is not kept, the next call scans again. *)
Theorem subclasses_cache_is_sticky (direct direct' : list pyclass) :
  let first := Scan.subclasses direct [] in
  fst first = Scan._get_subclasses direct
  /\ (fst first <> [] ->
      Scan.subclasses direct' (snd first) = (fst first, fst first))
  /\ (fst first = [] ->
      Scan.subclasses direct' (snd first)
      = (Scan._get_subclasses direct', Scan._get_subclasses direct')).
Proof.
  simpl. split; [reflexivity|]. split.
  - intro H. destruct (Scan._get_subclasses direct); [congruence | reflexivity].
  - intros ->. reflexivity.
Qed.

(** A class defined after the first non-empty scan cannot be
    constructed: with Clayton and Frank scanned first, a Gumbel class
    added afterwards is not in the list the constructor searches. *)
Example late_subclass_is_invisible :
  let early := [PyClass Sample.clayton []; PyClass Sample.frank []] in
  let late := early ++ [PyClass Sample.gumbel []] in
  let cache := snd (Scan.subclasses early []) in
  construct (map class_body (fst (Scan.subclasses late cache))) (PyEnum GUMBEL) = Ret None
  /\ construct (map class_body (fst (Scan.subclasses late []))) (PyEnum GUMBEL)
     = Ret (Some (init Sample.gumbel)).
Proof. split; reflexivity. Qed.

Section FirstMatch.

Variable subclasses : list Subclass.

Lemma find_first {A} (f : A -> bool) (l : list A) (x : A) :
  find f l = Some x ->
  exists before after, l = before ++ x :: after /\ forall y, In y before -> f y = false.
Proof.
  induction l as [|a l IH]; simpl; [discriminate|].
  destruct (f a) eqn:E.
  - intro H. injection H as <-. exists [], l. split; [reflexivity | intros y []].
  - intro H. destruct (IH H) as [before [after [-> Hb]]].
    exists (a :: before), after. split; [reflexivity|].
    intros y [<-|Hy]; [exact E | exact (Hb y Hy)].
Qed.

(** Among scanned classes that carry the same member the constructor
    takes the first in scan order: every class before the one it
    instantiates carries another member. *)
Theorem construct_takes_first_match (t : CopulaTypes) (m : Bivariate)
    (Hc : construct subclasses (PyEnum t) = Ret (Some m)) :
  exists before after,
    subclasses = before ++ klass m :: after
    /\ copula_type (klass m) = t
    /\ forall c, In c before -> copula_type c <> t.
Proof.
  unfold construct, new in Hc. simpl in Hc.
  destruct (find (fun subclass => CopulaType.eqb (copula_type subclass) t) subclasses)
    as [c|] eqn:E; [|discriminate].
  simpl in Hc. injection Hc as <-. simpl.
  apply find_some in E as E'. destruct E' as [_ He]. apply CopulaType_eqb_eq in He.
  destruct (find_first _ _ _ E) as [before [after [Hl Hb]]].
  exists before, after. repeat split; auto.
  intros c0 Hin Heq. specialize (Hb c0 Hin). simpl in Hb.
  rewrite Heq in Hb. destruct t; discriminate Hb.
Qed.

End FirstMatch.

Lemma construct_takes_first_match_witness :
  exists before after,
    map class_body (Scan._get_subclasses Sample2.tree)
    = before ++ klass (init Sample.gumbel) :: after
    /\ copula_type (klass (init Sample.gumbel)) = GUMBEL
    /\ forall c, In c before -> copula_type c <> GUMBEL.
Proof.
  apply (construct_takes_first_match
           (map class_body (Scan._get_subclasses Sample2.tree)) GUMBEL (init Sample.gumbel)).
  reflexivity.
Defined.

(* ------------------------------------------------------------------ *)
(** ** Fitting, saving and selecting together *)

Section Together.

Variable kendalltau : list pyfloat -> list pyfloat -> result pyfloat.
Variable subclasses : list Subclass.

(** A model built by tag and fitted survives [to_dict] and [from_dict]
    with its class, theta and tau; the decoded model has no data and
    passes [check_theta]. *)
Theorem fitted_model_roundtrip (t : CopulaTypes) (U V : list pyfloat) (x : Bivariate)
    (Hx : fitted kendalltau subclasses t U V = Ret x) :
  from_dict subclasses (to_dict x) = Ret (mkBivariate (klass x) None None (theta x) (tau x))
  /\ check_theta (mkBivariate (klass x) None None (theta x) (tau x)) = Ret tt.
Proof.
  unfold fitted in Hx.
  destruct (construct subclasses (PyEnum t)) as [[m|]|e] eqn:Ec; simpl in Hx; try discriminate.
  destruct (fit kendalltau m U V) as [[[]|e] x'] eqn:Ef; [|discriminate].
  injection Hx as <-.
  assert (Hok : fst (fit kendalltau m U V) = Ret tt) by (rewrite Ef; reflexivity).
  destruct (fit_success_inversion kendalltau m U V Hok) as [t' [th [_ [_ [Hs Hv]]]]].
  rewrite Ef in Hs. simpl in Hs. subst x'.
  unfold construct, new in Ec. simpl in Ec.
  destruct (find (fun subclass => CopulaType.eqb (copula_type subclass) t) subclasses)
    as [c|] eqn:E; [|discriminate].
  simpl in Ec. injection Ec as <-. simpl in *.
  apply find_some in E as E'. destruct E' as [_ He]. apply CopulaType_eqb_eq in He.
  split.
  - unfold from_dict, to_dict, construct, new. simpl.
    rewrite members_upper_name. simpl. rewrite He, E. reflexivity.
  - destruct Hv as [H1 [H2 H3]]. unfold check_theta. simpl.
    destruct (theta_interval c) as [lower upper]. simpl in *.
    rewrite H1, H2, H3. reflexivity.
Qed.

(** The Frank fit is optional only as far as its [ValueError]s go: when
    no scanned class carries [FRANK], [select_copula] fails with an
    [AttributeError] in both branches, as soon as the Clayton model has
    fitted. *)
Theorem select_copula_needs_frank_class (U V : list pyfloat) (clayton : Bivariate)
    (Hnone : forall c, In c subclasses -> copula_type c <> FRANK)
    (Hfit : fitted kendalltau subclasses CLAYTON U V = Ret clayton) :
  select_copula kendalltau subclasses U V = Raise AttributeError.
Proof.
  assert (Hf : fitted kendalltau subclasses FRANK U V = Raise AttributeError).
  { unfold fitted, construct, new. simpl.
    destruct (find (fun subclass => CopulaType.eqb (copula_type subclass) FRANK) subclasses)
      as [c|] eqn:E; [|reflexivity].
    apply find_some in E. destruct E as [Hin He]. apply CopulaType_eqb_eq in He.
    exfalso. exact (Hnone c Hin He). }
  assert (Ht : exists t, tau clayton = Some t).
  { unfold fitted in Hfit.
    destruct (construct subclasses (PyEnum CLAYTON)) as [[m|]|e]; simpl in Hfit;
      try discriminate.
    destruct (fit kendalltau m U V) as [[[]|e] x'] eqn:Ef; [|discriminate].
    injection Hfit as <-.
    assert (Hok : fst (fit kendalltau m U V) = Ret tt) by (rewrite Ef; reflexivity).
    destruct (fit_success_inversion kendalltau m U V Hok) as [t [th [_ [_ [Hs _]]]]].
    rewrite Ef in Hs. simpl in Hs. subst x'. exists t. reflexivity. }
  destruct Ht as [t Ht].
  unfold select_copula, try_fitted. rewrite Hfit. cbn [rbind]. rewrite Ht, Hf.
  destruct (fleb t zero); reflexivity.
Qed.

End Together.

Lemma fitted_model_roundtrip_witness :
  let U := [Sample.frac 1 5; Sample.frac 1 2; Sample.frac 4 5] in
  let V := [Sample.frac 1 2; Sample.frac 1 5; Sample.frac 4 5] in
  let x := snd (fit Sample.kendalltau (init Sample.gumbel) U V) in
  from_dict Sample.subclasses (to_dict x)
  = Ret (mkBivariate (klass x) None None (theta x) (tau x))
  /\ check_theta (mkBivariate (klass x) None None (theta x) (tau x)) = Ret tt.
Proof.
  intros U V x.
  apply (fitted_model_roundtrip Sample.kendalltau Sample.subclasses GUMBEL U V x).
  vm_compute. reflexivity.
Defined.

Lemma select_copula_needs_frank_class_witness :
  let U := [Sample.frac 1 5; Sample.frac 1 2; Sample.frac 4 5] in
  let V := [Sample.frac 1 2; Sample.frac 1 5; Sample.frac 4 5] in
  select_copula Sample.kendalltau [Sample.clayton; Sample.gumbel] U V = Raise AttributeError.
Proof.
  intros U V.
  apply (select_copula_needs_frank_class Sample.kendalltau [Sample.clayton; Sample.gumbel] U V
           (snd (fit Sample.kendalltau (init Sample.clayton) U V))).
  - intros c [<-|[<-|[]]]; discriminate.
  - vm_compute. reflexivity.
Defined.

(* ------------------------------------------------------------------ *)
(** ** Selection, the branch for non-positive tau (C3) *)

(** C3, as the code has it.  When the Clayton fit succeeds and its tau
    is at most zero, [select_copula] fits a Frank model on the same data
    and nothing else decides the outcome: no empirical curve and no
    score is computed.  If that fit succeeds, [select_copula] returns
    the tag [FRANK] with the theta of that Frank model, a theta valid
    for its class; if it raises, [select_copula] raises the same
    error. *)
Theorem select_copula_nonpositive_tau
    (kendalltau : list pyfloat -> list pyfloat -> result pyfloat)
    (subclasses : list Subclass) (U V : list pyfloat)
    (clayton : Bivariate) (t : pyfloat)
    (Hfit : fitted kendalltau subclasses CLAYTON U V = Ret clayton)
    (Htau : tau clayton = Some t)
    (Hle : fleb t zero = true) :
  (forall frank, fitted kendalltau subclasses FRANK U V = Ret frank ->
     select_copula kendalltau subclasses U V = Ret (FRANK, theta frank)
     /\ copula_type (klass frank) = FRANK
     /\ exists th, theta frank = Some th /\ valid_theta (klass frank) th)
  /\ (forall e, fitted kendalltau subclasses FRANK U V = Raise e ->
        select_copula kendalltau subclasses U V = Raise e).
Proof.
  assert (Hsel : select_copula kendalltau subclasses U V
                 = match fitted kendalltau subclasses FRANK U V with
                   | Ret frank => Ret (FRANK, theta frank)
                   | Raise e => Raise e
                   end).
  { unfold select_copula. rewrite Hfit. simpl. rewrite Htau, Hle. reflexivity. }
  split.
  - intros frank Hfrank. rewrite Hsel, Hfrank. split; [reflexivity|].
    destruct (fitted_inversion kendalltau subclasses FRANK U V frank Hfrank)
      as [Htag [_ Hth]].
    split; [exact Htag | exact Hth].
  - intros e Hfrank. rewrite Hsel, Hfrank. reflexivity.
Qed.

(** Three observations with Kendall's tau [-1/3], and a Clayton-style
    class that admits negative theta: the Clayton fit succeeds, the
    Frank fit succeeds with theta [-3], and that is what comes back. *)
Lemma select_copula_nonpositive_tau_witness :
  let U := [Sample.frac 1 5; Sample.frac 1 2; Sample.frac 4 5] in
  let V := [Sample.frac 1 2; Sample.frac 4 5; Sample.frac 1 5] in
  let frank := snd (fit Sample.kendalltau (init Sample.frank) U V) in
  (select_copula Sample.kendalltau Sample2.signed_subclasses U V = Ret (FRANK, theta frank)
   /\ copula_type (klass frank) = FRANK
   /\ exists th, theta frank = Some th /\ valid_theta (klass frank) th)
  /\ theta frank = Some (Fin (-3)).
Proof.
  intros U V frank. split; [|vm_compute; reflexivity].
  apply (select_copula_nonpositive_tau Sample.kendalltau Sample2.signed_subclasses U V
           (snd (fit Sample.kendalltau (init Sample2.signed_clayton) U V))
           (Sample.frac (-1) 3)).
  - vm_compute. reflexivity.
  - vm_compute. reflexivity.
  - reflexivity.
  - vm_compute. reflexivity.
Defined.

(** C3, as stated, fails.  On four observations with Kendall's tau [0]
    the Clayton model fits with tau [0 <= 0]; the Frank fit computes the
    forbidden theta [0] and raises, and so does [select_copula]: no pair
    is returned.  And on two observations in opposite order the Clayton
    model's tau is [-1 <= 0], stored by a fit that then raises on theta
    [-1]; [select_copula] raises with it and fits no Frank model. *)
Lemma select_copula_nonpositive_tau_raises :
  let U := [Sample.frac 1 10; Sample.frac 1 5; Sample.frac 3 10; Sample.frac 2 5] in
  let V := [Sample.frac 1 5; Sample.frac 2 5; Sample.frac 1 10; Sample.frac 3 10] in
  let U' := [Sample.frac 1 10; Sample.frac 1 5] in
  let V' := [Sample.frac 1 5; Sample.frac 1 10] in
  (exists clayton,
      fitted Sample.kendalltau Sample.subclasses CLAYTON U V = Ret clayton
      /\ tau clayton = Some (Fin 0) /\ fleb (Fin 0) zero = true)
  /\ select_copula Sample.kendalltau Sample.subclasses U V
     = Raise (ValueError ThetaOutOfLimits)
  /\ (forall th, select_copula Sample.kendalltau Sample.subclasses U V <> Ret (FRANK, th))
  /\ tau (snd (fit Sample.kendalltau (init Sample.clayton) U' V')) = Some (Fin (-1))
  /\ fst (fit Sample.kendalltau (init Sample.clayton) U' V')
     = Raise (ValueError ThetaOutOfLimits)
  /\ select_copula Sample.kendalltau Sample.subclasses U' V'
     = Raise (ValueError ThetaOutOfLimits).
Proof.
  intros U V U' V'. split; [|split; [|split]].
  - exists (snd (fit Sample.kendalltau (init Sample.clayton) U V)).
    vm_compute. repeat split; reflexivity.
  - vm_compute. reflexivity.
  - intro th. vm_compute. discriminate.
  - vm_compute. repeat split; reflexivity.
Qed.
